(** * ez-oauth: protected-resource discovery and the authorization-code flow

    A shallow embedding of the discovery resolver ([OAuthDiscovery], and the
    caching variant in [OAuthConfig]), of the PKCE/state/nonce value object
    ([OAuthState]), of the storage providers and of the flow orchestrator
    ([OAuthClient]), followed by the properties established about them.

    Conventions of the embedding:
    - JavaScript values that come out of [JSON.parse] or a JWT payload are
      values of [JSON]; an object is a finite map from property names to
      values, a property that is [undefined] is an absent key.
    - A call that can throw (or a promise that can reject) returns [Res];
      [await] of a settled promise is sequencing in that monad.
    - Functions of the platform and of third-party packages (URL parsing,
      [JSON.parse], jose, openid-client, url-sheriff, redis) are
      capabilities: fields of the classes [Platform], [Jose],
      [OpenidClient], [URLSheriff] and [RedisClient]. The network behind ky
      is a script of responses in the [World]. *)

From Stdlib Require Import ZArith Ascii String.
From stdpp Require Import base option gmap strings list fin_maps pretty.

Open Scope string_scope.

(** ** JavaScript values, errors and results *)

Module JS.

#[warnings="-register-all"] Inductive JSON : Type :=
| JNull
| JBool (b : bool)
| JNum (n : Z)
| JStr (s : string)
| JArr (l : list JSON)
| JObj (o : gmap string JSON).

(** Truthiness of a possibly [undefined] value ([None] is [undefined]). *)
Definition truthy (v : option JSON) : bool :=
  match v with
  | None | Some JNull => false
  | Some (JBool b) => b
  | Some (JNum n) => negb (n =? 0)%Z
  | Some (JStr s) => negb (String.eqb s "")
  | Some (JArr _) | Some (JObj _) => true
  end.

(** Truthiness of a string. *)
Definition truthy_string (s : string) : bool := negb (String.eqb s "").

(** [s.includes(sub)] *)
Fixpoint includes (sub s : string) : bool :=
  String.prefix sub s ||
  match s with
  | EmptyString => false
  | String _ s' => includes sub s'
  end.

(** [s.startsWith(p)] *)
Definition startsWith (p s : string) : bool := String.prefix p s.

(** [s.replace(/\/$/, "")]: drops one slash at the very end of [s]. *)
Fixpoint strip_trailing_slash (s : string) : string :=
  match s with
  | EmptyString => EmptyString
  | String c EmptyString =>
      if Ascii.eqb c "/"%char then EmptyString else s
  | String c s' => String c (strip_trailing_slash s')
  end.

(** Classes of thrown values. [NonError] stands for a thrown value that
    is not an instance of [Error]. *)
Inductive ErrorClass :=
| Error | TypeError | SyntaxError | AssertionError
| OAuthStateError | OAuthClientError
| ClientError | HTTPError | JOSEError | NonError.

(** A thrown value: its class, message and cause; [response_body] is the
    body of the response an [HTTPError] carries ([None] when the body is
    null), [reason] the field of that name of an [OAuthClientError]. *)
#[warnings="-register-all"] Inductive Exn : Type := mkExn {
  class : ErrorClass;
  message : string;
  cause : option Exn;
  response_body : option string;
  reason : option JSON
}.

Definition new_Error (c : ErrorClass) (msg : string) : Exn :=
  mkExn c msg None None None.

Definition instanceof_Error (e : Exn) : bool :=
  match class e with
  | NonError => false
  | _ => true
  end.

Definition instanceof (c : ErrorClass) (e : Exn) : bool :=
  match c, class e with
  | Error, _ => instanceof_Error e
  | TypeError, TypeError | SyntaxError, SyntaxError
  | AssertionError, AssertionError | OAuthStateError, OAuthStateError
  | OAuthClientError, OAuthClientError | ClientError, ClientError
  | HTTPError, HTTPError | JOSEError, JOSEError => true
  | _, _ => false
  end.

(** The outcome of a call: a value, or a thrown value (a rejected
    promise once awaited). *)
Inductive Res (A : Type) : Type :=
| Ok (a : A)
| Throw (e : Exn).
Arguments Ok {A} a.
Arguments Throw {A} e.

Definition bind {A B} (r : Res A) (k : A -> Res B) : Res B :=
  match r with
  | Ok a => k a
  | Throw e => Throw e
  end.

Definition is_ok {A} (r : Res A) : bool :=
  match r with
  | Ok _ => true
  | Throw _ => false
  end.

(** [try { r } catch (e) { h e }] *)
Definition try_catch {A} (r : Res A) (h : Exn -> Res A) : Res A :=
  match r with
  | Ok a => Ok a
  | Throw e => h e
  end.

(** A URL object, reduced to what the sources read and write. *)
Record URL := mkURL {
  origin : string;
  pathname : string;
  search : string
}.

Definition URL_toString (u : URL) : string :=
  origin u ++ pathname u ++ search u.

(** An argument of type [URL | string]. *)
Inductive UrlOrString :=
| AUrl (u : URL)
| AString (s : string).

(** Builtins of the platform. [new_URL v] is [new URL(v)] ([None]: it
    throws a [TypeError]); [set_pathname u p] is the URL after
    [u.pathname = p]; [JSON_parse s] is [None] on a [SyntaxError]. *)
Class Platform := {
  new_URL : JSON -> option URL;
  set_pathname : URL -> string -> URL;
  JSON_parse : string -> option JSON;
  JSON_stringify : JSON -> string
}.

Definition URL_of `{Platform} (v : JSON) : Res URL :=
  match new_URL v with
  | Some u => Ok u
  | None => Throw (new_Error TypeError "Invalid URL")
  end.

Definition parseJSON `{Platform} (s : string) : Res JSON :=
  match JSON_parse s with
  | Some j => Ok j
  | None => Throw (new_Error SyntaxError "JSON Parse error")
  end.

(** [toURL] of utils/url (also [OAuthConfig.toURL]): a URL object is
    returned as it is, the very same object. *)
Definition toURL `{Platform} (url : UrlOrString) : Res URL :=
  match url with
  | AUrl u => Ok u
  | AString s => URL_of (JStr s)
  end.

(** [url.toString()] of a [URL | string]. *)
Definition toString (url : UrlOrString) : string :=
  match url with
  | AUrl u => URL_toString u
  | AString s => s
  end.

End JS.
Export JS.

Notation "'let*' x ':=' c 'in' k" := (JS.bind c (fun x => k))
  (at level 10, x name, c at level 100, k at level 200).

(** ** The network: ky *)

Module Net.

(** What the sources read of a ky response. *)
Record Response := mkResponse {
  ok : bool;
  url : string;
  content_type : option string;
  body : string
}.

(** The world a discovery call runs in: the answers the network will
    give to the next requests, in order, the requests issued so far (URL
    and Accept header), and the clock in milliseconds. *)
Record World := mkWorld {
  responses : list (Res Response);
  requests : list (string * string);
  clock : Z
}.

(** A computation that may issue requests. *)
Definition M (A : Type) : Type := World -> Res A * World.

Definition ret {A} (a : A) : M A := fun w => (Ok a, w).

Definition lift {A} (r : Res A) : M A := fun w => (r, w).

Definition mbind {A B} (c : M A) (k : A -> M B) : M B :=
  fun w =>
    match c w with
    | (Ok a, w') => k a w'
    | (Throw e, w') => (Throw e, w')
    end.

(** [await ky.get(url, { headers: { Accept: accept } })]: the request is
    logged and answered by the next scripted response. *)
Definition ky_get (url accept : string) : M Response :=
  fun w =>
    let log := (requests w ++ [(url, accept)])%list in
    match responses w with
    | r :: rest => (r, mkWorld rest log (clock w))
    | [] => (Throw (new_Error TypeError "fetch failed"), mkWorld [] log (clock w))
    end.

(** [res.headers.get("Content-Type")], [await res.text()] and
    [await res.json()]. *)
Definition text (res : Response) : Res string := Ok (body res).

Definition json `{Platform} (res : Response) : Res JSON := parseJSON (body res).

End Net.
Export Net.

Notation "'let!' x ':=' c 'in' k" := (Net.mbind c (fun x => k))
  (at level 10, x name, c at level 100, k at level 200).

(** ** discovery/OAuthDiscovery.ts *)

Module OAuthDiscovery.

Definition PROTECTED_RESOURCE_DISCOVERY_JWT_MEDIA_TYPE : string :=
  "application/oauth-protected-resource-jwt".

Definition PROTECTED_RESOURCE_DISCOVERY_JSON_MEDIA_TYPE : string :=
  "application/oauth-protected-resource+json".

(** [ProtectedResourceDiscoveryResult] and [SignedMetadataPayload] are
    JavaScript objects. *)
Abbreviation Metadata := (gmap string JSON).

(** What jose verifies against: a key returned by [getKey], or the
    resolver made by [createRemoteJWKSet] or [createLocalJWKSet]. *)
Inductive KeyInput :=
| Key (k : JSON)
| RemoteJWKSet (u : URL)
| LocalJWKSet (jwks : JSON).

(** jose: [decodeJwt] reads the payload without verifying; [jwtVerify]
    gives the payload of a token whose signature verifies, and throws
    otherwise (also where [createLocalJWKSet] would reject the key set). *)
Class Jose := {
  decodeJwt : JSON -> Res Metadata;
  jwtVerify : JSON -> KeyInput -> Res Metadata
}.

(** [{ jwks: JSONWebKeySet | string } | { getKey }]; a [jwks] that is a
    string is [JStr]. *)
Inductive ProtectedResourceDiscoveryJwtOptions :=
| Jwks (jwks : JSON)
| GetKey (getKey : string -> Res JSON).

Record GetProtectedResourceDiscoveryOptions := mkOptions {
  jwt : option ProtectedResourceDiscoveryJwtOptions
}.

(** [options?.jwt] *)
Definition options_jwt (options : option GetProtectedResourceDiscoveryOptions)
  : option ProtectedResourceDiscoveryJwtOptions :=
  match options with
  | Some o => jwt o
  | None => None
  end.

Inductive OAuthDiscoveryAlgorithm := oidc | oauth2 | protected_resource.

(** [v === s] for a string [s]. *)
Definition is_string (v : option JSON) (s : string) : bool :=
  match v with
  | Some (JStr r) => String.eqb r s
  | _ => false
  end.

(** [...(v && { k: v })] spread into [o]. *)
Definition spread_if (k : string) (v : option JSON) (o : Metadata) : Metadata :=
  match v with
  | Some x => if truthy v then <[k := x]> o else o
  | None => o
  end.

Section WithCapabilities.
Context `{Platform} `{Jose}.

Definition requestResourceIdFromIssuer
    (issuer : UrlOrString) (resourcePath : option string) : Res string :=
  let* u := toURL issuer in
  let id := strip_trailing_slash (origin u ++ pathname u) in
  match resourcePath with
  | Some rp =>
      if truthy_string rp then
        Ok (if truthy_string id then id ++ "/" ++ rp
            else origin u ++ "/" ++ rp)
      else Ok id
  | None => Ok id
  end.

Definition payloadToResult (payload : Metadata) : option Metadata :=
  match payload !! "resource", payload !! "authorization_servers" with
  | Some (JStr resource), Some (JArr (a :: l)) =>
      let bearer :=
        match payload !! "bearer_methods_supported" with
        | Some (JArr (b :: bs)) => JArr (b :: bs)
        | _ => JArr [JStr "header"]
        end in
      let documentation :=
        match payload !! "resource_documentation" with
        | Some (JStr d) => JStr d
        | _ => JStr ""
        end in
      Some
        (spread_if "resource_signing_alg_values_supported"
           (payload !! "resource_signing_alg_values_supported")
           (spread_if "resource_endpoints" (payload !! "resource_endpoints")
              (<["resource" := JStr resource]>
                 (<["authorization_servers" := JArr (a :: l)]>
                    (<["bearer_methods_supported" := bearer]>
                       (<["resource_documentation" := documentation]> ∅))))))
  | _, _ => None
  end.

(** The payload [verifySignedMetadata] goes on with: [None] is the
    early [return null] when the unverified [iss] is not a string. *)
Definition verifiedPayload
    (jwt : JSON) (options : ProtectedResourceDiscoveryJwtOptions)
  : Res (option Metadata) :=
  match options with
  | GetKey getKey =>
      let* unverified := decodeJwt jwt in
      match unverified !! "iss" with
      | Some (JStr iss) =>
          let* key := getKey iss in
          let* payload := jwtVerify jwt (Key key) in
          Ok (Some payload)
      | _ => Ok None
      end
  | Jwks jwks =>
      let* getKey :=
        match jwks with
        | JStr s => let* u := URL_of (JStr s) in Ok (RemoteJWKSet u)
        | _ => Ok (LocalJWKSet jwks)
        end in
      let* payload := jwtVerify jwt getKey in
      Ok (Some payload)
  end.

Definition verifySignedMetadata
    (jwt : JSON) (options : ProtectedResourceDiscoveryJwtOptions)
    (requestResourceId : string) : Res (option Metadata) :=
  let* verified := verifiedPayload jwt options in
  match verified with
  | None => Ok None
  | Some payload =>
      match payloadToResult payload with
      | Some result =>
          if is_string (result !! "resource") requestResourceId
          then Ok (Some result)
          else Ok None
      | None => Ok None
      end
  end.

(** The end of the [try] block of [getProtectedResourceDiscovery]:
    plain JSON without [signed_metadata]. *)
Definition plainJson (json : Metadata) : Res (option Metadata) :=
  match json !! "resource", json !! "authorization_servers" with
  | Some (JStr _), Some (JArr (_ :: _)) => Ok (Some json)
  | _, _ => Ok None
  end.

(** The body of the [try] block of [getProtectedResourceDiscovery]. A
    parsed body that is [null] throws at [json.signed_metadata]; on any
    other value that is not an object every property read is
    [undefined], so the result is [null]. *)
Definition plainOrSignedJson
    (res : Response) (options : option GetProtectedResourceDiscoveryOptions)
    (requestResourceId : string) : Res (option Metadata) :=
  let* json := Net.json res in
  match json with
  | JNull =>
      Throw (new_Error TypeError
               "null is not an object (evaluating 'json.signed_metadata')")
  | JObj json =>
      match json !! "signed_metadata" with
      | Some signed_metadata =>
          if truthy (Some signed_metadata) then
            match options_jwt options with
            | None =>
                Throw (new_Error Error
                  "Verification required for signed_metadata. Pass options.jwt with jwks or getKey to verify the signature (RFC 9728 Section 3.3).")
            | Some jwtOptions =>
                let* merged :=
                  verifySignedMetadata signed_metadata jwtOptions
                    requestResourceId in
                match merged with
                | Some merged =>
                    let rest := delete "signed_metadata" json in
                    Ok (Some (merged ∪ rest))
                | None => Ok None
                end
            end
          else plainJson json
      | None => plainJson json
      end
  | _ => Ok None
  end.

Definition getProtectedResourceDiscovery
    (issuer : UrlOrString) (resourcePath : option string)
    (options : option GetProtectedResourceDiscoveryOptions)
  : M (option Metadata) :=
  let! base := lift (toURL issuer) in
  let path :=
    match resourcePath with
    | Some rp =>
        if truthy_string rp
        then ".well-known/oauth-protected-resource/" ++ rp
        else ".well-known/oauth-protected-resource"
    | None => ".well-known/oauth-protected-resource"
    end in
  let base := set_pathname base path in
  (* [base] is the caller's object when [issuer] is a URL: the
     assignment to [base.pathname] is seen through [issuer] below. *)
  let issuer :=
    match issuer with
    | AUrl _ => AUrl base
    | AString s => AString s
    end in
  let! requestResourceId :=
    lift (requestResourceIdFromIssuer issuer resourcePath) in
  let! res :=
    ky_get (URL_toString base)
      (PROTECTED_RESOURCE_DISCOVERY_JSON_MEDIA_TYPE ++ ", " ++
       PROTECTED_RESOURCE_DISCOVERY_JWT_MEDIA_TYPE) in
  if negb (ok res) then ret None
  else
    let contentType := default "" (content_type res) in
    if includes PROTECTED_RESOURCE_DISCOVERY_JWT_MEDIA_TYPE contentType then
      match options_jwt options with
      | None =>
          lift (Throw (new_Error Error
            ("Verification required for " ++
             PROTECTED_RESOURCE_DISCOVERY_JWT_MEDIA_TYPE ++
             ". Pass options.jwt with jwks or getKey to verify the signature (RFC 9728 Section 3.3).")))
      | Some jwtOptions =>
          let! jwt := lift (text res) in
          lift (verifySignedMetadata (JStr jwt) jwtOptions requestResourceId)
      end
    else
      lift (try_catch (plainOrSignedJson res options requestResourceId)
              (fun e =>
                 if instanceof_Error e &&
                    startsWith "Verification required" (message e)
                 then Throw e
                 else Throw (new_Error Error
                        ("Invalid protected resource discovery: " ++ url res)))).

(** What [resolveAuthorizationServerUrl] does with the discovery
    result: the assertion, then [new URL(authorization_servers[0])].
    A result whose [authorization_servers] is not an array is outside
    [ProtectedResourceDiscoveryResult] and is never returned by
    [getProtectedResourceDiscovery]; reading its [length] is modelled
    as a [TypeError]. *)
Definition firstAuthorizationServer (discovery : option Metadata) : Res URL :=
  match discovery with
  | None =>
      Throw (new_Error AssertionError "No authorization servers found")
  | Some discovery =>
      match discovery !! "authorization_servers" with
      | Some (JArr []) =>
          Throw (new_Error AssertionError "No authorization servers found")
      | Some (JArr (first :: _)) => URL_of first
      | _ =>
          Throw (new_Error TypeError
                   "undefined is not an object (evaluating 'discovery.authorization_servers.length')")
      end
  end.

(** [algorithm] is [None] when the argument is left out (default
    ["oidc"]). *)
Definition resolveAuthorizationServerUrl
    (issuer : UrlOrString) (algorithm : option OAuthDiscoveryAlgorithm)
    (resourcePath : option string)
    (protectedResourceJwt : option ProtectedResourceDiscoveryJwtOptions)
  : M URL :=
  match default oidc algorithm with
  | protected_resource =>
      let! discovery :=
        getProtectedResourceDiscovery issuer resourcePath
          (match protectedResourceJwt with
           | Some j => Some (mkOptions (Some j))
           | None => None
           end) in
      lift (firstAuthorizationServer discovery)
  | _ => lift (toURL issuer)
  end.

End WithCapabilities.

End OAuthDiscovery.

(** ** The lru-cache package *)

Module LRUCache.

(** A cache of at most [max] entries, most recently used first; each
    entry carries the time it was set. An entry older than [ttl] is
    stale. *)
Record t := mk {
  max : nat;
  ttl : Z;
  entries : list (string * (JSON * Z))
}.

Definition new (max : nat) (ttl : Z) : t := mk max ttl [].

Fixpoint find (k : string) (es : list (string * (JSON * Z))) : option (JSON * Z) :=
  match es with
  | [] => None
  | (k', e) :: es => if String.eqb k k' then Some e else find k es
  end.

Definition remove (k : string) (es : list (string * (JSON * Z)))
  : list (string * (JSON * Z)) :=
  filter (fun e => negb (String.eqb k (fst e))) es.

Definition stale (c : t) (now start : Z) : bool := (ttl c <? now - start)%Z.

Definition has (c : t) (now : Z) (k : string) : bool :=
  match find k (entries c) with
  | Some (_, start) => negb (stale c now start)
  | None => false
  end.

(** [get] drops a stale entry and moves a fresh one to the front. *)
Definition get (c : t) (now : Z) (k : string) : option JSON * t :=
  match find k (entries c) with
  | Some (v, start) =>
      if stale c now start
      then (None, mk (max c) (ttl c) (remove k (entries c)))
      else (Some v, mk (max c) (ttl c) ((k, (v, start)) :: remove k (entries c)))
  | None => (None, c)
  end.

(** [set] puts the entry in front and evicts the least recently used
    one when the cache is full. *)
Definition set (c : t) (now : Z) (k : string) (v : JSON) : t :=
  let es := remove k (entries c) in
  let es := if (max c <=? length es)%nat then removelast es else es in
  mk (max c) (ttl c) ((k, (v, now)) :: es).

End LRUCache.

(** ** The openid-client package *)

Module Openid.

(** A [Configuration]: the server and the client metadata it holds. *)
Record Configuration := mkConfiguration {
  serverMetadata : JSON;
  clientMetadata : JSON
}.

(** The checks handed to [authorizationCodeGrant]. *)
Record AuthorizationCodeGrantChecks := mkChecks {
  expectedState : string;
  pkceCodeVerifier : string;
  expectedNonce : string
}.

(** A [URLSearchParams]: name and value pairs, in order. *)
Abbreviation URLSearchParams := (list (string * string)).

(** The functions of openid-client the sources call.
    [new_Configuration server client_id client] is the constructor,
    [serverSupportsPKCE c] is [c.serverMetadata().supportsPKCE()]. *)
Class OpenidClient := {
  new_Configuration : option JSON -> option JSON -> option JSON -> Res Configuration;
  serverSupportsPKCE : Configuration -> bool;
  calculatePKCECodeChallenge : string -> string;
  buildAuthorizationUrl : Configuration -> URLSearchParams -> Res URL;
  authorizationCodeGrant :
    Configuration -> URL -> AuthorizationCodeGrantChecks -> Res JSON
}.

End Openid.
Export Openid.

(** ** OAuthConfig.ts: the configuration wrapper and its cached discovery *)

Module OAuthConfig.

Import OAuthDiscovery.

(** [OAuthConfig.cache] when the process starts. *)
Definition cache : LRUCache.t :=
  LRUCache.new 500 (1000 * 60 * 60 * 24 * 7).

Section WithCapabilities.
Context `{Platform}.

(** The private static [getProtectedResourceDiscovery]; the static
    [cache] is passed in and out. The result is the parsed body as it
    is ([None] is [null]). *)
Definition getProtectedResourceDiscovery
    (issuer : UrlOrString) (cache : LRUCache.t) (w : World)
  : Res (option JSON) * LRUCache.t * World :=
  if LRUCache.has cache (clock w) (toString issuer) then
    let '(v, cache) := LRUCache.get cache (clock w) (toString issuer) in
    (Ok v, cache, w)
  else
    match toURL issuer with
    | Throw e => (Throw e, cache, w)
    | Ok url =>
        let url := set_pathname url ".well-known/oauth-protected-resource" in
        (* [url] is the caller's object when [issuer] is a URL *)
        let issuer :=
          match issuer with
          | AUrl _ => AUrl url
          | AString s => AString s
          end in
        match ky_get (URL_toString url)
                PROTECTED_RESOURCE_DISCOVERY_JSON_MEDIA_TYPE w with
        | (Throw e, w) => (Throw e, cache, w)
        | (Ok res, w) =>
            if ok res then
              if match content_type res with
                 | Some ct =>
                     includes PROTECTED_RESOURCE_DISCOVERY_JWT_MEDIA_TYPE ct
                 | None => false
                 end
              then
                (Throw (new_Error Error
                   (PROTECTED_RESOURCE_DISCOVERY_JWT_MEDIA_TYPE ++
                    " is not supported")), cache, w)
              else
                match Net.json res with
                | Ok json =>
                    (Ok (Some json),
                     LRUCache.set cache (clock w) (toString issuer) json, w)
                | Throw _ =>
                    (Throw (new_Error Error
                       "Invalid protected resource discovery: [object Response]"),
                     cache, w)
                end
            else (Ok None, cache, w)
        end
    end.

End WithCapabilities.

(** An instance of the class (or of a subclass, which may assign
    [_additionalParams]). [Record<string, string>] is kept as the list of
    its entries in insertion order. *)
Record t := mkConfig {
  name : string;
  userConfig : Configuration;
  redirectUri : URL;
  supportsPKCE : bool;
  _scopes : list string;
  _additionalParams : list (string * string)
}.

Definition config (c : t) : Configuration := userConfig c.
Definition scopes (c : t) : list string := _scopes c.
Definition additionalParams (c : t) : list (string * string) :=
  _additionalParams c.

Definition withScopes (c : t) (scopes : list string) : t :=
  mkConfig (name c) (userConfig c) (redirectUri c) (supportsPKCE c)
    scopes (_additionalParams c).

Section Class.
Context `{Platform} `{OpenidClient}.

(** The constructor once [redirectUri] is a URL. The loop over
    [_additionalParams] runs on the empty record of the field
    initializer. *)
Definition constructor_ (userConfig : Configuration) (redirectUri : URL) : t :=
  mkConfig "OAuthConfig" userConfig redirectUri
    (serverSupportsPKCE userConfig) [] [].

Definition constructor (userConfig : Configuration) (redirectUri : UrlOrString)
  : Res t :=
  let* u := toURL redirectUri in
  Ok (constructor_ userConfig u).

Definition toJSON (c : t) : gmap string JSON :=
  <["name" := JStr (name c)]>
    (<["scopes" := JArr (JStr <$> scopes c)]>
       (<["supportsPKCE" := JBool (supportsPKCE c)]>
          (<["server" := serverMetadata (config c)]>
             (<["client" := clientMetadata (config c)]>
                (<["redirectUri" := JStr (URL_toString (redirectUri c))]> ∅))))).

(** [fromJSON] on the value it is given at run time ([None] is
    [undefined]): [json.server] and [json.client.client_id] are read
    before anything is checked. *)
Definition fromJSON (json : option JSON) : Res t :=
  match json with
  | Some (JObj json) =>
      match json !! "client" with
      | None | Some JNull =>
          Throw (new_Error TypeError
                   "undefined is not an object (evaluating 'json.client.client_id')")
      | Some client =>
          let client_id :=
            match client with
            | JObj c => c !! "client_id"
            | _ => None
            end in
          let* userConfig :=
            new_Configuration (json !! "server") client_id (Some client) in
          match json !! "redirectUri" with
          | Some v => let* u := URL_of v in Ok (constructor_ userConfig u)
          | None => Throw (new_Error TypeError "Invalid URL")
          end
      end
  | Some JNull | None =>
      Throw (new_Error TypeError
               "undefined is not an object (evaluating 'json.server')")
  | Some _ =>
      Throw (new_Error TypeError
               "undefined is not an object (evaluating 'json.client.client_id')")
  end.

End Class.

End OAuthConfig.

(** ** state/OAuthState.ts *)

Module OAuthState.

Definition CODE_CHALLENGE_METHOD : string := "S256".

(** [Partial<OAuthStateOptions>] *)
Record OAuthStateOptions := mkOptions {
  opt_state : option string;
  opt_nonce : option string;
  opt_pkce : option string;
  opt_codeVerifier : option string
}.

Record t := mk {
  state : string;
  nonce : string;
  _pkce : option string;
  codeVerifier : string
}.

(** What [randomState], [randomNonce] and [randomPKCECodeVerifier] of
    openid-client return when a constructor calls them. *)
Record Random := mkRandom {
  randomState : string;
  randomNonce : string;
  randomPKCECodeVerifier : string
}.

(** [new OAuthState(options)]; [None] is [undefined] or [null]. *)
Definition constructor (options : option OAuthStateOptions) (rnd : Random) : t :=
  mk (default (randomState rnd) (options ≫= opt_state))
     (default (randomNonce rnd) (options ≫= opt_nonce))
     (options ≫= opt_pkce)
     (default (randomPKCECodeVerifier rnd) (options ≫= opt_codeVerifier)).

(** [getCodeChallenge]: the value, and the instance with [_pkce]
    memoized. *)
Definition getCodeChallenge `{OpenidClient} (s : t) : string * t :=
  match _pkce s with
  | Some p =>
      if truthy_string p then (p, s)
      else
        let c := calculatePKCECodeChallenge (codeVerifier s) in
        (c, mk (state s) (nonce s) (Some c) (codeVerifier s))
  | None =>
      let c := calculatePKCECodeChallenge (codeVerifier s) in
      (c, mk (state s) (nonce s) (Some c) (codeVerifier s))
  end.

Definition pkce (s : t) : option string := _pkce s.

(** The record [toJSON] returns. *)
Record Serialized := mkSerialized {
  j_name : string;
  j_state : string;
  j_nonce : string;
  j_pkce : option string;
  j_codeVerifier : string
}.

Definition toJSON (s : t) : Serialized :=
  mkSerialized "OAuthState" (state s) (nonce s) (pkce s) (codeVerifier s).

Definition fromJSON (json : Serialized) (rnd : Random) : t :=
  constructor
    (Some (mkOptions (Some (j_state json)) (Some (j_nonce json))
             (j_pkce json) (Some (j_codeVerifier json))))
    rnd.

(** The record as [JSON.stringify] sees it: a property that is
    [undefined] is left out. *)
Definition Serialized_value (j : Serialized) : JSON :=
  let o : gmap string JSON :=
    <["name" := JStr (j_name j)]>
      (<["state" := JStr (j_state j)]>
         (<["nonce" := JStr (j_nonce j)]>
            (<["codeVerifier" := JStr (j_codeVerifier j)]> ∅))) in
  JObj (match j_pkce j with
        | Some p => <["pkce" := JStr p]> o
        | None => o
        end).

(** A stored value read as [Partial<OAuthStateOptions>]: a string
    property is taken, a property that is missing or [null] is left to
    the [??] defaults. A property of another type is outside the declared
    type; it is read as missing. *)
Definition options_of_value (json : option JSON) : option OAuthStateOptions :=
  match json with
  | None | Some JNull => None
  | Some (JObj o) =>
      let field k :=
        match o !! k with
        | Some (JStr s) => Some s
        | _ => None
        end in
      Some (mkOptions (field "state") (field "nonce") (field "pkce")
              (field "codeVerifier"))
  | Some _ => Some (mkOptions None None None None)
  end.

(** [OAuthState.fromJSON] on the value it is given at run time. *)
Definition fromJSON_value (json : option JSON) (rnd : Random) : t :=
  constructor (options_of_value json) rnd.

End OAuthState.

(** ** storage/: the provider interface and its two implementations *)

Module Storage.

(** The contents of a key-value backend (the [Map] of the memory
    provider, the database behind a Redis client). *)
Abbreviation Store := (gmap string string).

(** A promise that has not settled: settling it gives its outcome and
    its effect on the backend. *)
Definition Promise (A : Type) : Type := Store -> Res A * Store.

(** [MaybePromise<T>]: the call returned or threw at once ([Now]), or
    it returned a promise. *)
Inductive MaybePromise (A : Type) : Type :=
| Now (r : Res A)
| Later (p : Promise A).
Arguments Now {A} r.
Arguments Later {A} p.

(** Each method gives what the call returns and the backend right after
    the call. *)
Record StorageProvider := mkProvider {
  save : string -> string -> Store -> MaybePromise unit * Store;
  get : string -> Store -> MaybePromise (option string) * Store;
  delete : string -> Store -> MaybePromise unit * Store;
  has : string -> Store -> MaybePromise bool * Store
}.

(** [await m]: a pending promise settles before the caller goes on. *)
Definition await {A} (m : MaybePromise A * Store) : Res A * Store :=
  match m with
  | (Now r, s) => (r, s)
  | (Later p, s) => p s
  end.

(** [MemoryStorageProvider]: every method is synchronous. *)
Definition MemoryStorageProvider : StorageProvider :=
  mkProvider
    (fun key value s => (Now (Ok tt), <[key := value]> s))
    (fun key s =>
       (Now (Ok (match s !! key with
                 | Some v => if truthy_string v then Some v else None
                 | None => None
                 end)), s))
    (fun key s => (Now (Ok tt), base.delete key s))
    (fun key s => (Now (Ok (bool_decide (is_Some (s !! key)))), s)).

(** The commands of a Redis client the provider sends; each is a
    promise. *)
Class RedisClient := {
  redis_set : string -> string -> Promise unit;
  redis_get : string -> Promise (option string);
  redis_del : string -> Promise unit;
  redis_exists : string -> Promise bool
}.

Record RedisStorageProviderOptions := mkRedisOptions {
  prefix : string;
  delimiter : string
}.

Definition createKey (options : RedisStorageProviderOptions) (key : string) : string :=
  prefix options ++ delimiter options ++ key.

(** [RedisStorageProvider]: every method is [async] and awaits one
    command, so a call returns a promise that settles with the command. *)
Definition RedisStorageProvider `{RedisClient}
    (options : RedisStorageProviderOptions) : StorageProvider :=
  mkProvider
    (fun key value s => (Later (redis_set (createKey options key) value), s))
    (fun key s => (Later (redis_get (createKey options key)), s))
    (fun key s => (Later (redis_del (createKey options key)), s))
    (fun key s => (Later (redis_exists (createKey options key)), s)).

End Storage.
Export Storage.

(** ** OAuthClient.ts: the flow orchestrator *)

Module OAuthClient.

Definition STATE_KEY : string := "core_oauth_state".

Record t := mk {
  userConfig : OAuthConfig.t;
  state : OAuthState.t;
  storage : option StorageProvider
}.

Definition config (c : t) : OAuthConfig.t := userConfig c.

(** What a call of the orchestrator runs in: [process.env.NODE_ENV], the
    storage backend, and the promises that were created and left
    without an [await], oldest first. *)
Record Runtime := mkRuntime {
  NODE_ENV : option string;
  store : Store;
  detached : list (Promise unit)
}.

(** The rest of the event loop: the promises nobody awaits settle, in
    order, after the caller has its answer. *)
Fixpoint settle (ps : list (Promise unit)) (s : Store) : list (Res unit) * Store :=
  match ps with
  | [] => ([], s)
  | p :: ps =>
      let '(r, s) := p s in
      let '(rs, s) := settle ps s in
      (r :: rs, s)
  end.

(** url-sheriff: [isSafeURL] rejects an unsafe URL. *)
Class URLSheriff := {
  isSafeURL : URL -> Res bool
}.

(** The factories [fromStorage] is given. *)
Record OAuthConfigFactory := mkConfigFactory {
  ConfigClass_fromJSON : option JSON -> Res OAuthConfig.t
}.

Record OAuthStateFactory := mkStateFactory {
  StateClass_fromJSON : option JSON -> OAuthState.Random -> Res OAuthState.t
}.

(** An object literal followed by a spread: a name already there keeps
    its place and takes the new value, a new name goes last. (Names that
    are array indices would be listed first; parameter names are not.) *)
Fixpoint object_set (o : list (string * string)) (k v : string)
  : list (string * string) :=
  match o with
  | [] => [(k, v)]
  | (k', v') :: o =>
      if String.eqb k k' then (k', v) :: o else (k', v') :: object_set o k v
  end.

Definition object_spread (o extra : list (string * string))
  : list (string * string) :=
  fold_left (fun o kv => object_set o (fst kv) (snd kv)) extra o.

(** [URLSearchParams]: [get], [has], and [set], which writes the first
    pair of that name and drops the others, or appends. *)
Fixpoint params_get (p : URLSearchParams) (k : string) : option string :=
  match p with
  | [] => None
  | (k', v) :: p => if String.eqb k k' then Some v else params_get p k
  end.

Definition params_has (p : URLSearchParams) (k : string) : bool :=
  bool_decide (is_Some (params_get p k)).

Fixpoint params_delete (p : URLSearchParams) (k : string) : URLSearchParams :=
  match p with
  | [] => []
  | (k', v') :: p =>
      if String.eqb k k' then params_delete p k
      else (k', v') :: params_delete p k
  end.

Fixpoint params_set (p : URLSearchParams) (k v : string) : URLSearchParams :=
  match p with
  | [] => [(k, v)]
  | (k', v') :: p =>
      if String.eqb k k' then (k', v) :: params_delete p k
      else (k', v') :: params_set p k v
  end.

Section WithCapabilities.
Context `{Platform} `{OpenidClient} `{URLSheriff}.

Definition constructor
    (userConfig : OAuthConfig.t) (state : OAuthState.t)
    (storage : option StorageProvider) : t :=
  mk userConfig state storage.

(** The query parameters of [createAuthorizationUrl], once the
    challenge is known. *)
Definition authorizationParams
    (config : OAuthConfig.t) (state : OAuthState.t)
    (code_challenge scopeSeparator : string) : URLSearchParams :=
  let params :=
    object_spread
      [("redirect_uri", URL_toString (OAuthConfig.redirectUri config));
       ("scope", String.concat scopeSeparator (OAuthConfig.scopes config));
       ("code_challenge", code_challenge);
       ("state", OAuthState.state state);
       ("code_challenge_method", OAuthState.CODE_CHALLENGE_METHOD)]
      (OAuthConfig.additionalParams config) in
  if negb (OAuthConfig.supportsPKCE config)
  then params_set params "nonce" (OAuthState.nonce state)
  else params.

(** The key and the value [saveState] hands to the provider. *)
Definition stateKey (key : string) : string := STATE_KEY ++ ":" ++ key.

Definition stateRecord (c : t) : string :=
  JSON_stringify
    (JObj (<["state" := OAuthState.Serialized_value (OAuthState.toJSON (state c))]>
             (<["config" := JObj (OAuthConfig.toJSON (config c))]> ∅))).

(** [saveState]: the call of [save] is not awaited. A provider that
    throws at once makes [saveState] reject; a promise it returns is
    dropped. *)
Definition saveState (c : t) (rt : Runtime) : Res unit * Runtime :=
  match storage c with
  | Some storage =>
      match save storage (stateKey (OAuthState.state (state c)))
              (stateRecord c) (store rt) with
      | (Now r, s) => (r, mkRuntime (NODE_ENV rt) s (detached rt))
      | (Later p, s) =>
          (Ok tt, mkRuntime (NODE_ENV rt) s (detached rt ++ [p])%list)
      end
  | None => (Ok tt, rt)
  end.

(** [createAuthorizationUrl]: the URL, the orchestrator (its state now
    holds the challenge) and the runtime. [scopeSeparator] is [None]
    when the argument is left out. *)
Definition createAuthorizationUrl
    (c : t) (scopeSeparator : option string) (rt : Runtime)
  : Res string * t * Runtime :=
  let scopeSeparator := default " " scopeSeparator in
  match (if bool_decide (NODE_ENV rt = Some "production")
         then isSafeURL (OAuthConfig.redirectUri (config c))
         else Ok true) with
  | Throw e => (Throw e, c, rt)
  | Ok _ =>
      let '(code_challenge, state) := OAuthState.getCodeChallenge (state c) in
      let c := mk (userConfig c) state (storage c) in
      let params :=
        authorizationParams (config c) state code_challenge scopeSeparator in
      match saveState c rt with
      | (Throw e, rt) => (Throw e, c, rt)
      | (Ok _, rt) =>
          (let* u := buildAuthorizationUrl
                       (OAuthConfig.config (config c)) params in
           Ok (URL_toString u), c, rt)
      end
  end.

(** [getTokensFromCodeGrant]; [None] is [undefined]. *)
Definition getTokensFromCodeGrant (c : t) (url : UrlOrString)
  : Res (option JSON) :=
  try_catch
    (let* u := toURL url in
     let* tokens :=
       authorizationCodeGrant (OAuthConfig.config (config c)) u
         (mkChecks (OAuthState.state (state c))
            (OAuthState.codeVerifier (state c))
            (OAuthState.nonce (state c))) in
     Ok (Some tokens))
    (fun e =>
       if instanceof ClientError e then
         let* reason :=
           match cause e with
           | Some http =>
               if instanceof HTTPError http then
                 match response_body http with
                 | Some body => let* j := parseJSON body in Ok (Some j)
                 | None => Ok None
                 end
               else Ok None
           | None => Ok None
           end in
         Throw (mkExn OAuthClientError "Failed to get tokens from code grant"
                  (Some e) None reason)
       else Ok None).

(** The [try] block of [fromStorage] after the entry is read. *)
Definition restore
    (storage : StorageProvider) (ConfigClass : OAuthConfigFactory)
    (StateClass : OAuthStateFactory) (key : string)
    (rnd : OAuthState.Random) (entry : option string) : Res t :=
  match entry with
  | None =>
      Throw (new_Error OAuthStateError ("State " ++ key ++ " not found"))
  | Some store =>
      if negb (truthy_string store) then
        Throw (new_Error OAuthStateError ("State " ++ key ++ " not found"))
      else
        let* json := parseJSON store in
        if negb (truthy (Some json)) then
          Throw (new_Error OAuthStateError ("State " ++ key ++ " not found"))
        else
          match json with
          | JObj o =>
              if negb (bool_decide (is_Some (o !! "state"))) &&
                 negb (bool_decide (is_Some (o !! "config")))
              then
                Throw (new_Error OAuthStateError
                         ("State " ++ key ++ " is invalid"))
              else
                let* state := StateClass_fromJSON StateClass (o !! "state") rnd in
                let* config := ConfigClass_fromJSON ConfigClass (o !! "config") in
                Ok (constructor config state (Some storage))
          | JArr _ =>
              Throw (new_Error OAuthStateError
                       ("State " ++ key ++ " is invalid"))
          | _ =>
              Throw (new_Error TypeError
                       "right-hand side of 'in' is not an object")
          end
  end.

(** [fromStorage]; [rnd] is what the random generators return if the
    state factory calls them. *)
Definition fromStorage
    (storage : StorageProvider) (ConfigClass : OAuthConfigFactory)
    (StateClass : OAuthStateFactory) (key : string)
    (rnd : OAuthState.Random) (rt : Runtime) : Res t * Runtime :=
  let '(r, s) := await (get storage (stateKey key) (store rt)) in
  (try_catch
     (let* entry := r in
      restore storage ConfigClass StateClass key rnd entry)
     (fun e =>
        if instanceof SyntaxError e
        then Throw (mkExn Error "Invalid state entry" (Some e) None None)
        else Throw e),
   mkRuntime (NODE_ENV rt) s (detached rt)).

(** The factories of the base classes. *)
Definition OAuthConfigClass : OAuthConfigFactory :=
  mkConfigFactory OAuthConfig.fromJSON.

Definition OAuthStateClass : OAuthStateFactory :=
  mkStateFactory (fun json rnd => Ok (OAuthState.fromJSON_value json rnd)).

End WithCapabilities.

End OAuthClient.

(** ** Test doubles: a platform, jose, openid-client and Redis clients *)

Module Fixtures.

Import OAuthDiscovery.

Definition quote : string := String (ascii_of_nat 34) EmptyString.

(** JSON text of a value (strings are written without escapes). *)
Fixpoint stringify (j : JSON) : string :=
  match j with
  | JNull => "null"
  | JBool b => if b then "true" else "false"
  | JNum n => pretty n
  | JStr s => quote ++ s ++ quote
  | JArr l => "[" ++ String.concat "," (stringify <$> l) ++ "]"
  | JObj o =>
      "{" ++ String.concat ","
               ((fun kv => quote ++ kv.1 ++ quote ++ ":" ++ kv.2) <$>
                  map_to_list (stringify <$> o)) ++ "}"
  end.

(** A parser that knows the documents of [docs]. *)
Definition parse_among (docs : list JSON) (s : string) : option JSON :=
  List.find (fun d => String.eqb (stringify d) s) docs.

Fixpoint split_at_slash (s : string) : string * string :=
  match s with
  | EmptyString => (EmptyString, EmptyString)
  | String c s' =>
      if Ascii.eqb c "/"%char then (EmptyString, s)
      else let '(h, t) := split_at_slash s' in (String c h, t)
  end.

(** [new URL(v)] for the form [https://host/path]. *)
Definition parse_url (v : JSON) : option URL :=
  match v with
  | JStr s =>
      if String.prefix "https://" s then
        let '(host, path) :=
          split_at_slash (String.substring 8 (String.length s - 8) s) in
        if String.eqb host "" then None
        else Some (mkURL ("https://" ++ host)
                     (if String.eqb path "" then "/" else path) "")
      else None
  | _ => None
  end.

Definition assign_pathname (u : URL) (p : string) : URL :=
  mkURL (origin u) (if String.prefix "/" p then p else "/" ++ p) (search u).

Definition platform (docs : list JSON) : Platform :=
  Build_Platform parse_url assign_pathname (parse_among docs) stringify.

Definition RESOURCE_ID : string := "https://resource.example.com".
Definition AS_ISSUER : string := "https://as.example.com".

Definition json_response (doc : JSON) : Response :=
  mkResponse true
    (RESOURCE_ID ++ "/.well-known/oauth-protected-resource")
    (Some PROTECTED_RESOURCE_DISCOVERY_JSON_MEDIA_TYPE) (stringify doc).

(** Tokens: the key that signed each, and its payload. *)
Definition jwks_accepts (jwks : JSON) (kid : string) : bool :=
  match jwks with
  | JObj o =>
      match o !! "keys" with
      | Some (JArr ks) =>
          existsb (fun k => match k with
                            | JObj ko => is_string (ko !! "kid") kid
                            | _ => false
                            end) ks
      | _ => false
      end
  | _ => false
  end.

Definition key_accepts (key : KeyInput) (kid : string) : bool :=
  match key with
  | Key (JStr k) => String.eqb k kid
  | LocalJWKSet jwks => jwks_accepts jwks kid
  | _ => false
  end.

Definition find_token (tokens : list (string * (string * Metadata))) (jwt : JSON)
  : Res (string * Metadata) :=
  match jwt with
  | JStr t =>
      match List.find (fun e => String.eqb e.1 t) tokens with
      | Some e => Ok e.2
      | None => Throw (new_Error JOSEError "Invalid Compact JWS")
      end
  | _ => Throw (new_Error JOSEError "JWTs must use Compact JWS serialization")
  end.

Definition jose (tokens : list (string * (string * Metadata))) : Jose :=
  Build_Jose
    (fun jwt => let* t := find_token tokens jwt in Ok t.2)
    (fun jwt key =>
       let* t := find_token tokens jwt in
       if key_accepts key t.1 then Ok t.2
       else Throw (new_Error JOSEError "signature verification failed")).

Definition key_set : JSON :=
  JObj {[ "keys" := JArr [JObj {[ "kid" := JStr "key-1" ]}] ]}.

(** A signed payload with the two required claims only. *)
Definition minimal_payload : Metadata :=
  <["resource" := JStr RESOURCE_ID]>
    (<["authorization_servers" := JArr [JStr AS_ISSUER]]>
       (<["iss" := JStr AS_ISSUER]> ∅)).

Definition tokens : list (string * (string * Metadata)) :=
  [("signed.minimal.token", ("key-1", minimal_payload))].

(** Plain metadata for another resource. *)
Definition other_resource_doc : Metadata :=
  <["resource" := JStr "https://other.example.com"]>
    (<["authorization_servers" := JArr [JStr AS_ISSUER]]> ∅).

(** Plain metadata with its own bearer methods and documentation, and a
    [signed_metadata] token. *)
Definition plain_with_signed_doc : Metadata :=
  <["resource" := JStr RESOURCE_ID]>
    (<["authorization_servers" := JArr [JStr "https://other-as.example.com"]]>
       (<["bearer_methods_supported" := JArr [JStr "body"]]>
          (<["resource_documentation" :=
               JStr "https://resource.example.com/json-docs"]>
             (<["signed_metadata" := JStr "signed.minimal.token"]> ∅)))).

(** Two answers of the same resource server, one after the other. *)
Definition first_doc : Metadata :=
  <["resource" := JStr RESOURCE_ID]>
    (<["authorization_servers" := JArr [JStr AS_ISSUER]]> ∅).

Definition second_doc : Metadata :=
  <["resource" := JStr RESOURCE_ID]>
    (<["authorization_servers" := JArr [JStr "https://new-as.example.com"]]> ∅).

Definition discovery_documents : list JSON :=
  [JObj other_resource_doc; JObj plain_with_signed_doc;
   JObj first_doc; JObj second_doc].

Definition discovery_platform : Platform := platform discovery_documents.

Definition verifier : Jose := jose tokens.

Definition issuer : UrlOrString := AString RESOURCE_ID.

(** A world that will give the answers [rs], before any request. *)
Definition world (rs : list (Res Response)) : World := mkWorld rs [] 0.

Definition jwt_response : Response :=
  mkResponse true RESOURCE_ID
    (Some PROTECTED_RESOURCE_DISCOVERY_JWT_MEDIA_TYPE) "signed.minimal.token".

Definition not_found : Response :=
  mkResponse false RESOURCE_ID (Some "text/plain") "".

(** openid-client: a challenge that shows its verifier, a URL builder
    that writes the parameters in order, and a token endpoint whose
    answer is [grant]. *)
Definition query (params : URLSearchParams) : string :=
  String.concat "&" ((fun kv => kv.1 ++ "=" ++ kv.2) <$> params).

Definition supports_S256 (server : JSON) : bool :=
  match server with
  | JObj o =>
      match o !! "code_challenge_methods_supported" with
      | Some (JArr ms) =>
          existsb (fun m => match m with
                            | JStr m => String.eqb m "S256"
                            | _ => false
                            end) ms
      | _ => false
      end
  | _ => false
  end.

Definition openid (grant : Res JSON) : OpenidClient :=
  Build_OpenidClient
    (fun server client_id client =>
       match server, client_id, client with
       | Some server, Some _, Some client => Ok (mkConfiguration server client)
       | _, _, _ => Throw (new_Error TypeError "invalid configuration")
       end)
    (fun c => supports_S256 (serverMetadata c))
    (fun verifier => "S256(" ++ verifier ++ ")")
    (fun c params =>
       Ok (mkURL AS_ISSUER "/authorize" ("?" ++ query params)))
    (fun _ _ _ => grant).

Definition sheriff : OAuthClient.URLSheriff :=
  OAuthClient.Build_URLSheriff (fun _ => Ok true).

(** A Redis client that stores, and one whose connection is closed. *)
Definition redis : RedisClient :=
  Build_RedisClient
    (fun k v s => (Ok tt, <[k := v]> s))
    (fun k s => (Ok (s !! k), s))
    (fun k s => (Ok tt, base.delete k s))
    (fun k s => (Ok (bool_decide (is_Some (s !! k))), s)).

Definition closed_redis : RedisClient :=
  Build_RedisClient
    (fun _ _ s => (Throw (new_Error Error "The client is closed"), s))
    (fun _ s => (Throw (new_Error Error "The client is closed"), s))
    (fun _ s => (Throw (new_Error Error "The client is closed"), s))
    (fun _ s => (Throw (new_Error Error "The client is closed"), s)).

Definition redis_options : RedisStorageProviderOptions :=
  mkRedisOptions "ez-oauth" ":".

(** A client configuration and a flow state. *)
Definition server_metadata (pkce : bool) : JSON :=
  JObj (<["issuer" := JStr AS_ISSUER]>
          (if pkce
           then {[ "code_challenge_methods_supported" := JArr [JStr "S256"] ]}
           else ∅)).

Definition client_metadata : JSON := JObj {[ "client_id" := JStr "client-1" ]}.

Definition configuration (pkce : bool) (additionalParams : list (string * string))
  : OAuthConfig.t :=
  OAuthConfig.mkConfig "OAuthConfig"
    (mkConfiguration (server_metadata pkce) client_metadata)
    (mkURL "https://app.example.com" "/callback" "")
    pkce ["openid"; "email"] additionalParams.

Definition flow_state : OAuthState.t :=
  OAuthState.mk "state-1" "nonce-1" None "verifier-1".

Definition fresh : OAuthState.Random :=
  OAuthState.mkRandom "random-state" "random-nonce" "random-verifier".

(** A stored entry with a [config] and no [state]. *)
Definition config_only_entry : JSON :=
  JObj {[ "config" := JObj (OAuthConfig.toJSON (configuration true [])) ]}.

(** A stored entry with a [state] and no [config]. *)
Definition state_only_entry : JSON :=
  JObj {[ "state" := OAuthState.Serialized_value (OAuthState.toJSON flow_state) ]}.

Definition error_body : JSON := JObj {[ "error" := JStr "invalid_grant" ]}.

Definition client_documents : list JSON :=
  [config_only_entry; state_only_entry; error_body].

Definition client_platform : Platform := platform client_documents.

(** Failures of the token endpoint: the network is down; the provider
    answers 400 with an error document. *)
Definition network_failure : Exn := new_Error TypeError "fetch failed".

Definition invalid_grant : Exn :=
  mkExn ClientError "unexpected HTTP response status code"
    (Some (mkExn HTTPError "Request failed with status code 400 Bad Request"
             None (Some (stringify error_body)) None))
    None None.

Definition callback : UrlOrString :=
  AString "https://app.example.com/callback?code=code-1&state=state-1".

Definition client (pkce : bool) (additionalParams : list (string * string))
    (storage : option StorageProvider) : OAuthClient.t :=
  OAuthClient.mk (configuration pkce additionalParams) flow_state storage.

Definition idle : OAuthClient.Runtime := OAuthClient.mkRuntime None ∅ [].

(** A token endpoint that answers. *)
Definition token_endpoint : OpenidClient :=
  openid (Ok (JObj {[ "access_token" := JStr "token-1" ]})).

End Fixtures.

(** ** discovery/OAuthDiscovery.ts: [discover] and [dcr]; OAuthConfig.ts:
    [fromDiscovery] and [fromDcr] *)

Module OAuthDiscoveryEntry.

Import OAuthDiscovery.

(** openid-client: [discovery server clientId clientSecret algorithm] (the
    algorithm is [None] when the option is [undefined]) and
    [dynamicClientRegistration server metadata]. *)
Class OpenidDiscovery := {
  discovery :
    URL -> string -> option string -> option OAuthDiscoveryAlgorithm ->
    Res Configuration;
  dynamicClientRegistration : URL -> JSON -> Res Configuration
}.

Record DiscoverOptions := mkDiscoverOptions {
  clientId : string;
  clientSecret : option string;
  redirectUri : string;
  algorithm : option OAuthDiscoveryAlgorithm;
  protectedResourceJwt : option ProtectedResourceDiscoveryJwtOptions
}.

Record DcrOptions := mkDcrOptions {
  dcr_redirectUri : UrlOrString;
  dcr_algorithm : option OAuthDiscoveryAlgorithm;
  dcr_protectedResourceJwt : option ProtectedResourceDiscoveryJwtOptions
}.

Section WithCapabilities.
Context `{Platform} `{Jose} `{OpenidDiscovery} `{OpenidClient}.

Definition discover (issuer : UrlOrString) (options : DiscoverOptions)
  : M Configuration :=
  let algorithm := default oidc (algorithm options) in
  let! server :=
    resolveAuthorizationServerUrl issuer (Some algorithm) None
      (protectedResourceJwt options) in
  let discoveryAlgorithm :=
    match algorithm with
    | protected_resource => oauth2
    | _ => algorithm
    end in
  lift (discovery server (clientId options) (clientSecret options)
          (Some discoveryAlgorithm)).

Definition dcr (issuer : UrlOrString) (options : DcrOptions) : M Configuration :=
  let algorithm := default oidc (dcr_algorithm options) in
  let! server :=
    resolveAuthorizationServerUrl issuer (Some algorithm) None
      (dcr_protectedResourceJwt options) in
  lift (dynamicClientRegistration server (JObj ∅)).

(** [OAuthConfig.fromDiscovery] and [OAuthConfig.fromDcr]: the instance
    is made with [new OAuthConfig], whatever class they are called on. *)
Definition fromDiscovery (issuer : UrlOrString) (options : DiscoverOptions)
  : M OAuthConfig.t :=
  let! configuration := discover issuer options in
  lift (OAuthConfig.constructor configuration (AString (redirectUri options))).

Definition fromDcr (issuer : UrlOrString) (options : DcrOptions)
  : M OAuthConfig.t :=
  let! configuration := dcr issuer options in
  lift (let* redirectUri := toURL (dcr_redirectUri options) in
        OAuthConfig.constructor configuration (AUrl redirectUri)).

End WithCapabilities.

End OAuthDiscoveryEntry.

(** ** OAuthConfig.ts: the static [dcr] and [discover] over the cached
    discovery *)

Module OAuthConfigEntry.

Import OAuthDiscovery OAuthDiscoveryEntry.

(** [v > 0] for a value [v] that is a string, an array or an object (the
    comparison goes through the conversion of [v] to a number). *)
Class Coercion := {
  coerced_gt_zero : JSON -> bool
}.

Record Options := mkOptions {
  algorithm : option OAuthDiscoveryAlgorithm;
  redirectUri : UrlOrString;
  clientId : string;
  clientSecret : option string
}.

Section WithCapabilities.
Context `{Platform} `{OpenidDiscovery} `{OpenidClient} `{Coercion}.

(** [v > 0]; [None] is [undefined]. *)
Definition gt_zero (v : option JSON) : bool :=
  match v with
  | None | Some JNull => false
  | Some (JNum n) => (0 <? n)%Z
  | Some (JBool b) => b
  | Some v => coerced_gt_zero v
  end.

(** [s[0]] of a string that is not empty. *)
Definition first_character (s : string) : option JSON :=
  match s with
  | EmptyString => None
  | String c _ => Some (JStr (String c EmptyString))
  end.

(** The block under [if (discovery)]: the assertion on
    [discovery.authorization_servers.length], then
    [new URL(discovery.authorization_servers[0])]. The document is the
    parsed body as it came: nothing has checked its shape. *)
Definition firstAuthorizationServer (discovery : JSON) : Res URL :=
  let authorization_servers :=
    match discovery with
    | JObj o => o !! "authorization_servers"
    | _ => None
    end in
  let* checked :=
    match authorization_servers with
    | None | Some JNull =>
        Throw (new_Error TypeError
                 "undefined is not an object (evaluating 'discovery.authorization_servers.length')")
    | Some (JArr l) => Ok ((0 <? length l)%nat, head l)
    | Some (JStr s) => Ok ((0 <? String.length s)%nat, first_character s)
    | Some (JObj o) => Ok (gt_zero (o !! "length"), o !! "0")
    | Some _ => Ok (false, None)
    end in
  if checked.1 then
    match checked.2 with
    | Some first => URL_of first
    | None => Throw (new_Error TypeError "Invalid URL")
    end
  else Throw (new_Error AssertionError "No authorization servers found").

(** The issuer as the caller sees it once
    [OAuthConfig.getProtectedResourceDiscovery] has run: a URL object has
    its [pathname] reassigned unless the cache answered. *)
Definition issuerAfterDiscovery
    (issuer : UrlOrString) (cache : LRUCache.t) (w : World) : UrlOrString :=
  match issuer with
  | AUrl u =>
      if LRUCache.has cache (clock w) (toString issuer) then AUrl u
      else AUrl (set_pathname u ".well-known/oauth-protected-resource")
  | AString s => AString s
  end.

(** The statements [dcr] and [discover] begin with: the URL that
    openid-client is then pointed at. [url] is the issuer object itself
    when the issuer is a URL, so it follows the reassignment above. *)
Definition serverUrl
    (issuer : UrlOrString) (algorithm : option OAuthDiscoveryAlgorithm)
    (cache : LRUCache.t) (w : World) : Res URL * LRUCache.t * World :=
  match toURL issuer with
  | Throw e => (Throw e, cache, w)
  | Ok url =>
      match algorithm with
      | Some protected_resource =>
          let '(r, cache', w') :=
            OAuthConfig.getProtectedResourceDiscovery issuer cache w in
          let url :=
            match issuerAfterDiscovery issuer cache w with
            | AUrl u => u
            | AString _ => url
            end in
          match r with
          | Throw e => (Throw e, cache', w')
          | Ok discovery =>
              if truthy discovery then
                match discovery with
                | Some d => (firstAuthorizationServer d, cache', w')
                | None => (Ok url, cache', w')
                end
              else (Ok url, cache', w')
          end
      | _ => (Ok url, cache, w)
      end
  end.

Definition dcr (issuer : UrlOrString) (options : Options)
    (cache : LRUCache.t) (w : World) : Res OAuthConfig.t * LRUCache.t * World :=
  let '(url, cache, w) := serverUrl issuer (algorithm options) cache w in
  (let* url := url in
   let* config := dynamicClientRegistration url (JObj ∅) in
   OAuthConfig.constructor config (redirectUri options), cache, w).

Definition discover (issuer : UrlOrString) (options : Options)
    (cache : LRUCache.t) (w : World) : Res OAuthConfig.t * LRUCache.t * World :=
  let '(url, cache, w) := serverUrl issuer (algorithm options) cache w in
  (let* url := url in
   let* config :=
     discovery url (clientId options) (clientSecret options)
       (match algorithm options with
        | Some protected_resource => Some oauth2
        | a => a
        end) in
   OAuthConfig.constructor config (redirectUri options), cache, w).

End WithCapabilities.

End OAuthConfigEntry.

(** ** storage/: the constructors and [clear] *)

Module StorageEntry.

(** [new MemoryStorageProvider(initialState)]: the map the instance
    starts with. *)
Definition MemoryStorageProvider_new (initialState : list (string * string)) : Store :=
  fold_left (fun s kv => <[kv.1 := kv.2]> s) initialState ∅.

Definition MemoryStorageProvider_clear (s : Store) : MaybePromise unit * Store :=
  (Now (Ok tt), ∅).

(** The options argument of [new RedisStorageProvider]: both properties
    are optional in the type. *)
Record RedisStorageProviderArgument := mkRedisArgument {
  arg_prefix : option string;
  arg_delimiter : option string
}.

(** The constructor: the default applies when the argument is left out,
    not to a property that is left out; then the three assertions. *)
Definition RedisStorageProvider_new (options : option RedisStorageProviderArgument)
  : Res RedisStorageProviderOptions :=
  let options :=
    default (mkRedisArgument (Some "ez-oauth") (Some ":")) options in
  match arg_prefix options with
  | Some prefix =>
      if truthy_string prefix then
        match arg_delimiter options with
        | Some delimiter =>
            if truthy_string delimiter then
              if (String.length delimiter =? 1)%nat
              then Ok (mkRedisOptions prefix delimiter)
              else Throw (new_Error AssertionError
                            "delimiter must be a single character")
            else Throw (new_Error AssertionError "delimiter is required")
        | None => Throw (new_Error AssertionError "delimiter is required")
        end
      else Throw (new_Error AssertionError "prefix is required")
  | None => Throw (new_Error AssertionError "prefix is required")
  end.

(** [clear]: one [DEL] of the name made of the prefix and a star. *)
Definition RedisStorageProvider_clear `{RedisClient}
    (options : RedisStorageProviderOptions) (s : Store)
  : MaybePromise unit * Store :=
  (Later (redis_del (prefix options ++ "*")), s).

End StorageEntry.

(** ** utils/auth.ts *)

Module Auth.

(** [Buffer.from(s, "base64").toString("utf8")], which does not throw,
    [Buffer.from(s, "utf8").toString("base64")], and [decodeURIComponent]
    ([None]: it throws a [URIError]). *)
Class Encoding := {
  base64_to_utf8 : string -> string;
  utf8_to_base64 : string -> string;
  decodeURIComponent : string -> option string
}.

(** White space of [trim] among the code units a [string] here can
    hold (those below 256). *)
Definition is_white_space (c : ascii) : bool :=
  let n := nat_of_ascii c in
  ((9 <=? n) && (n <=? 13) || (n =? 32) || (n =? 160))%nat.

Fixpoint trimStart (s : string) : string :=
  match s with
  | EmptyString => EmptyString
  | String c s' => if is_white_space c then trimStart s' else s
  end.

Fixpoint trimEnd (s : string) : string :=
  match s with
  | EmptyString => EmptyString
  | String c s' =>
      match trimEnd s' with
      | EmptyString => if is_white_space c then EmptyString else String c EmptyString
      | t => String c t
      end
  end.

(** [s.trim()] *)
Definition trim (s : string) : string := trimEnd (trimStart s).

(** [s.slice(n)] and [s.slice(0, n)] for [n] within the string. *)
Fixpoint slice_from (n : nat) (s : string) : string :=
  match n, s with
  | O, _ => s
  | S n, String _ s' => slice_from n s'
  | S _, EmptyString => EmptyString
  end.

Fixpoint slice_to (n : nat) (s : string) : string :=
  match n, s with
  | S n, String c s' => String c (slice_to n s')
  | _, _ => EmptyString
  end.

(** [s.indexOf(":")]; [None] is [-1]. *)
Fixpoint indexOf_colon (s : string) : option nat :=
  match s with
  | EmptyString => None
  | String c s' =>
      if Ascii.eqb c ":"%char then Some O else S <$> indexOf_colon s'
  end.

Section WithCapabilities.
Context `{Encoding}.

(** [safeDecode]: the message it logs is left out. *)
Definition safeDecode (s : string) : string :=
  match decodeURIComponent s with
  | Some d => d
  | None => s
  end.

(** [decodeBasicAuthCredentials]: nothing in the [try] block throws once
    [safeDecode] has caught the [URIError], so the [catch] is not
    reached. *)
Definition decodeBasicAuthCredentials (authHeader : string) : string :=
  if negb (startsWith "Basic " authHeader) then authHeader
  else
    let encoded := trim (slice_from 6 authHeader) in
    let raw := base64_to_utf8 encoded in
    if (512 <? String.length raw)%nat then authHeader
    else
      match indexOf_colon raw with
      | Some sep =>
          let idPart := slice_to sep raw in
          let secretPart := slice_from (sep + 1) raw in
          let fixed := safeDecode idPart ++ ":" ++ safeDecode secretPart in
          "Basic " ++ utf8_to_base64 fixed
      | None => authHeader
      end.

End WithCapabilities.

End Auth.

(** ** More test doubles *)

Module MoreFixtures.

Import OAuthDiscovery OAuthDiscoveryEntry Fixtures.

(** openid-client discovery that answers with the server it was pointed
    at and the algorithm it was given. *)
Definition algorithm_name (a : option OAuthDiscoveryAlgorithm) : string :=
  match a with
  | None => "undefined"
  | Some oidc => "oidc"
  | Some oauth2 => "oauth2"
  | Some protected_resource => "protected-resource"
  end.

Definition openid_discovery : OpenidDiscovery :=
  Build_OpenidDiscovery
    (fun server clientId _ algorithm =>
       Ok (mkConfiguration
             (JObj (<["issuer" := JStr (URL_toString server)]>
                      {[ "algorithm" := JStr (algorithm_name algorithm) ]}))
             (JObj {[ "client_id" := JStr clientId ]})))
    (fun server _ =>
       Ok (mkConfiguration
             (JObj {[ "issuer" := JStr (URL_toString server) ]})
             (JObj {[ "client_id" := JStr "registered-client" ]}))).

Definition coercion : OAuthConfigEntry.Coercion :=
  OAuthConfigEntry.Build_Coercion (fun _ => false).

Definition discover_options (a : OAuthDiscoveryAlgorithm) : DiscoverOptions :=
  mkDiscoverOptions "client-1" None "https://app.example.com/callback" (Some a) None.


(** A platform that parses the record [saveState] writes for [c]. *)
Definition record_of (c : OAuthClient.t) : JSON :=
  JObj (<["state" :=
            OAuthState.Serialized_value (OAuthState.toJSON (OAuthClient.state c))]>
          (<["config" := JObj (OAuthConfig.toJSON (OAuthClient.config c))]> ∅)).

Definition memoized (c : OAuthClient.t) : OAuthClient.t :=
  OAuthClient.mk (OAuthClient.userConfig c)
    (@OAuthState.getCodeChallenge token_endpoint (OAuthClient.state c)).2
    (OAuthClient.storage c).

Definition flow_platform : Platform :=
  platform [record_of (memoized (client true [] (Some MemoryStorageProvider)));
            JNull; JStr "entry"; JNum 7; JArr []; error_body].

(** A sheriff that rejects every URL. *)
Definition unsafe : Exn := new_Error Error "URL is not safe".

Definition strict_sheriff : OAuthClient.URLSheriff :=
  OAuthClient.Build_URLSheriff (fun _ => Throw unsafe).

(** A provider whose [save] throws at once. *)
Definition quota : Exn := new_Error Error "quota exceeded".

Definition full_provider : StorageProvider :=
  mkProvider
    (fun _ _ s => (Now (Throw quota), s))
    (Storage.get MemoryStorageProvider)
    (Storage.delete MemoryStorageProvider)
    (Storage.has MemoryStorageProvider).

(** A client error whose response body is not JSON. *)
Definition gateway_error : Exn :=
  mkExn ClientError "unexpected HTTP response status code"
    (Some (mkExn HTTPError "Request failed with status code 502 Bad Gateway"
             None (Some "<html>Bad Gateway</html>") None))
    None None.

(** Base64 and percent decoding on the few strings the examples use. *)
Definition encoding : Auth.Encoding :=
  Auth.Build_Encoding
    (fun s => if String.eqb s "aWQlM0ExOnMlMjUzYQ==" then "id%3A1:s%253a"
              else if String.eqb s "dXNlcjpwYTpzcw==" then "user:pa:ss"
              else if String.eqb s "bm9jb2xvbg==" then "nocolon"
              else if String.eqb s "aWQ6JUUwJUE0JUE=" then "id:%E0%A4%A"
              else "")
    (fun s => if String.eqb s "id:1:s%3a" then "aWQ6MTpzJTNh"
              else if String.eqb s "user:pa:ss" then "dXNlcjpwYTpzcw=="
              else if String.eqb s "id:%E0%A4%A" then "aWQ6JUUwJUE0JUE="
              else "")
    (fun s => if String.eqb s "id%3A1" then Some "id:1"
              else if String.eqb s "s%253a" then Some "s%3a"
              else if String.eqb s "%E0%A4%A" then None
              else Some s).

End MoreFixtures.

(** ** Notions the properties are stated with *)

Module Notions.

(** The [path] of [OAuthDiscovery.getProtectedResourceDiscovery]. *)
Definition wellKnownPath (resourcePath : option string) : string :=
  match resourcePath with
  | Some rp =>
      if truthy_string rp
      then ".well-known/oauth-protected-resource/" ++ rp
      else ".well-known/oauth-protected-resource"
  | None => ".well-known/oauth-protected-resource"
  end.

End Notions.
Export Notions.

(** ** Inputs of the examples *)

Module Inputs.

Import OAuthDiscovery OAuthDiscoveryEntry Fixtures MoreFixtures.

(** A key set that did not sign the token of [Fixtures.tokens]. *)
Definition other_key_set : JSON :=
  JObj {[ "keys" := JArr [JObj {[ "kid" := JStr "key-2" ]}] ]}.

(** A decoder that reports other unverified claims, with the same [iss],
    and the verification of [Fixtures.verifier]. *)
Definition forged_claims : Metadata :=
  <["iss" := JStr AS_ISSUER]> {[ "resource" := JStr "https://evil.example.com" ]}.

Definition lenient_decoder : Jose :=
  Build_Jose (fun _ => Ok forged_claims) (@jwtVerify verifier).

(** A token without [iss]. *)
Definition anonymous_payload : Metadata :=
  <["resource" := JStr RESOURCE_ID]>
    {[ "authorization_servers" := JArr [JStr AS_ISSUER] ]}.

Definition anonymous_tokens : list (string * (string * Metadata)) :=
  [("anonymous.token", ("key-1", anonymous_payload))].

Definition key_callback (iss : string) : Res JSON :=
  if String.eqb iss AS_ISSUER then Ok (JStr "key-1")
  else Throw (new_Error Error "unknown issuer").

Definition html_response : Response :=
  mkResponse true (RESOURCE_ID ++ "/.well-known/oauth-protected-resource")
    (Some PROTECTED_RESOURCE_DISCOVERY_JSON_MEDIA_TYPE) "<html></html>".

Definition issuer_object : URL := mkURL RESOURCE_ID "/" "".

(** An implementation of the challenge that has drifted. *)
Definition drifted : OpenidClient :=
  Build_OpenidClient
    (@new_Configuration token_endpoint)
    (@serverSupportsPKCE token_endpoint)
    (fun verifier => "drifted(" ++ verifier ++ ")")
    (@buildAuthorizationUrl token_endpoint)
    (@authorizationCodeGrant token_endpoint).

Definition stored_state : gmap string JSON :=
  <["pkce" := JStr "stored-challenge"]> {[ "codeVerifier" := JStr "verifier-1" ]}.

Definition production : OAuthClient.Runtime :=
  OAuthClient.mkRuntime (Some "production") ∅ [].

Definition restored_configuration : OAuthConfig.t :=
  OAuthConfig.mkConfig "OAuthConfig"
    (mkConfiguration (server_metadata true) client_metadata)
    (mkURL "https://app.example.com" "/callback" "") true [] [].

End Inputs.

(** ** A platform for the flow stored in Redis *)

Module RedisInputs.

Import Fixtures MoreFixtures.


End RedisInputs.
Export RedisInputs.

(** * Properties *)

(** ** Signed metadata: what [payloadToResult] and the binding check give *)

Section DiscoveryFacts.
Import OAuthDiscovery.
Context `{Platform} `{Jose}.

Lemma spread_if_lookup_ne k k' v (o : Metadata) :
  k ≠ k' -> spread_if k v o !! k' = o !! k'.
Proof.
  intros Hne. unfold spread_if.
  destruct v as [x|]; [|done].
  destruct (truthy (Some x)); [|done].
  by rewrite lookup_insert_ne.
Qed.

Lemma payloadToResult_required payload result :
  payloadToResult payload = Some result ->
  exists resource first others,
    payload !! "resource" = Some (JStr resource) /\
    payload !! "authorization_servers" = Some (JArr (first :: others)) /\
    result !! "resource" = Some (JStr resource) /\
    result !! "authorization_servers" = Some (JArr (first :: others)).
Proof.
  unfold payloadToResult. intros Hres.
  destruct (payload !! "resource") as [[| | |resource| |]|]; try discriminate.
  destruct (payload !! "authorization_servers") as [[| | | |[|first others]|]|];
    try discriminate.
  injection Hres as <-.
  exists resource, first, others.
  repeat split; rewrite !spread_if_lookup_ne by done; by simplify_map_eq.
Qed.

(** The two properties [payloadToResult] always fills in. *)
Lemma payloadToResult_bearer payload result :
  payloadToResult payload = Some result ->
  result !! "bearer_methods_supported" =
    Some (match payload !! "bearer_methods_supported" with
          | Some (JArr (b :: bs)) => JArr (b :: bs)
          | _ => JArr [JStr "header"]
          end).
Proof.
  unfold payloadToResult. intros Hres.
  destruct (payload !! "resource") as [[| | |resource| |]|]; try discriminate.
  destruct (payload !! "authorization_servers") as [[| | | |[|first others]|]|];
    try discriminate.
  injection Hres as <-.
  rewrite !spread_if_lookup_ne by done. by simplify_map_eq.
Qed.

Lemma payloadToResult_documentation payload result :
  payloadToResult payload = Some result ->
  result !! "resource_documentation" =
    Some (match payload !! "resource_documentation" with
          | Some (JStr d) => JStr d
          | _ => JStr ""
          end).
Proof.
  unfold payloadToResult. intros Hres.
  destruct (payload !! "resource") as [[| | |resource| |]|]; try discriminate.
  destruct (payload !! "authorization_servers") as [[| | | |[|first others]|]|];
    try discriminate.
  injection Hres as <-.
  rewrite !spread_if_lookup_ne by done. by simplify_map_eq.
Qed.

Lemma is_string_eq v s : is_string v s = true -> v = Some (JStr s).
Proof.
  destruct v as [[| | |r| |]|]; simpl; try discriminate.
  intros Heq. apply String.eqb_eq in Heq. by subst.
Qed.

(** Binding of signed metadata: what [verifySignedMetadata] returns
    carries the request identifier as its [resource], whatever the key
    policy. *)
Lemma verifySignedMetadata_binding jwt options requestResourceId result :
  verifySignedMetadata jwt options requestResourceId = Ok (Some result) ->
  result !! "resource" = Some (JStr requestResourceId) /\
  exists first others,
    result !! "authorization_servers" = Some (JArr (first :: others)).
Proof.
  unfold verifySignedMetadata. intros Hv.
  destruct (verifiedPayload jwt options) as [[payload|]|e]; simpl in Hv;
    try discriminate.
  destruct (payloadToResult payload) as [r|] eqn:Hp; try discriminate.
  destruct (is_string (r !! "resource") requestResourceId) eqn:Hs;
    try discriminate.
  injection Hv as <-. split; [by apply is_string_eq|].
  destruct (payloadToResult_required _ _ Hp) as (? & first & others & _ & _ & _ & Hservers).
  by exists first, others.
Qed.

(** The merge [{ ...rest, ...merged }]: a property of [merged] wins, any
    other property of the plain document is kept. *)
Lemma merge_signed_wins (merged json : Metadata) k v :
  merged !! k = Some v ->
  (merged ∪ base.delete "signed_metadata" json) !! k = Some v.
Proof. intros Hm. by apply lookup_union_Some_l. Qed.

Lemma merge_plain_kept (merged json : Metadata) k :
  merged !! k = None -> k ≠ "signed_metadata" ->
  (merged ∪ base.delete "signed_metadata" json) !! k = json !! k.
Proof.
  intros Hm Hk. rewrite lookup_union_r by done. by rewrite lookup_delete_ne.
Qed.

Lemma plainJson_servers json d :
  plainJson json = Ok (Some d) ->
  d = json /\
  exists first others,
    d !! "authorization_servers" = Some (JArr (first :: others)).
Proof.
  unfold plainJson. intros Hp.
  destruct (json !! "resource") as [[| | |resource| |]|]; try discriminate.
  destruct (json !! "authorization_servers") as [[| | | |[|first others]|]|] eqn:Hs;
    try discriminate.
  injection Hp as <-. split; [done|]. by exists first, others.
Qed.

Lemma plainOrSignedJson_servers res options requestResourceId d :
  plainOrSignedJson res options requestResourceId = Ok (Some d) ->
  exists first others,
    d !! "authorization_servers" = Some (JArr (first :: others)).
Proof.
  unfold plainOrSignedJson. intros Hp.
  destruct (Net.json res) as [[| | | | |json]|e]; cbn [JS.bind] in Hp; try discriminate.
  assert (Hplain : plainJson json = Ok (Some d) ->
                   exists first others,
                     d !! "authorization_servers" = Some (JArr (first :: others)))
    by (intros Hj; by apply plainJson_servers in Hj as [_ ?]).
  destruct (json !! "signed_metadata") as [sm|]; [|by apply Hplain].
  destruct (truthy (Some sm)); [|by apply Hplain].
  destruct (options_jwt options) as [jwtOptions|]; [|discriminate].
  destruct (verifySignedMetadata sm jwtOptions requestResourceId)
    as [[merged|]|e] eqn:Hv; simpl in Hp; try discriminate.
  injection Hp as <-.
  destruct (verifySignedMetadata_binding _ _ _ _ Hv) as (_ & first & others & Hs).
  exists first, others. by apply merge_signed_wins.
Qed.

(** After the assignment to [base.pathname], the request identifier is
    computed without error whenever the issuer was a URL or parsed as
    one. *)
Lemma requestResourceId_defined issuer resourcePath u path :
  toURL issuer = Ok u ->
  exists id,
    requestResourceIdFromIssuer
      (match issuer with
       | AUrl _ => AUrl (set_pathname u path)
       | AString s => AString s
       end) resourcePath = Ok id.
Proof.
  intros Hu. unfold requestResourceIdFromIssuer.
  destruct issuer as [u'|s]; simpl in *.
  - destruct resourcePath as [rp|]; [destruct (truthy_string rp)|]; eauto.
  - rewrite Hu. simpl.
    destruct resourcePath as [rp|]; [destruct (truthy_string rp)|]; eauto.
Qed.

(** Every document [getProtectedResourceDiscovery] returns has a first
    authorization server. *)
Lemma getProtectedResourceDiscovery_servers issuer resourcePath options w d w' :
  getProtectedResourceDiscovery issuer resourcePath options w = (Ok (Some d), w') ->
  exists first others,
    d !! "authorization_servers" = Some (JArr (first :: others)).
Proof.
  unfold getProtectedResourceDiscovery, mbind, lift, ret, ky_get.
  destruct (toURL issuer) as [u|e]; [|discriminate].
  match goal with
  | |- context [requestResourceIdFromIssuer ?i ?p] =>
      destruct (requestResourceIdFromIssuer i p) as [id|e]; [|discriminate]
  end.
  destruct (responses w) as [|[res|e] rest]; try discriminate.
  destruct (ok res); simpl; [|discriminate].
  destruct (includes _ _).
  - destruct (options_jwt options) as [jwtOptions|]; [|discriminate].
    simpl. intros [= Hv _].
    by destruct (verifySignedMetadata_binding _ _ _ _ Hv) as [_ ?].
  - intros [= Hv _]. unfold try_catch in Hv.
    destruct (plainOrSignedJson res options id) as [r|e] eqn:Hp.
    + injection Hv as ->. by eapply plainOrSignedJson_servers.
    + by destruct (_ && _).
Qed.

End DiscoveryFacts.

(** ** The resolver [OAuthDiscovery.getProtectedResourceDiscovery] *)

Section DiscoveryClaims.
Import OAuthDiscovery.
Context `{Platform} `{Jose}.

(** C2. A 2xx response that is signed metadata (the JWT media type, or
    plain JSON with a [signed_metadata] claim) and no [options.jwt]: the
    call throws an [Error] whose message starts with "Verification
    required"; it returns neither claims nor [null]. *)
Theorem verification_required_without_policy
    issuer resourcePath options w u res rest :
  toURL issuer = Ok u ->
  responses w = Ok res :: rest ->
  ok res = true ->
  options_jwt options = None ->
  (includes PROTECTED_RESOURCE_DISCOVERY_JWT_MEDIA_TYPE
     (default "" (content_type res)) = true \/
   exists json signed_metadata,
     JSON_parse (body res) = Some (JObj json) /\
     json !! "signed_metadata" = Some signed_metadata /\
     truthy (Some signed_metadata) = true) ->
  exists e,
    (getProtectedResourceDiscovery issuer resourcePath options w).1 = Throw e /\
    class e = Error /\
    startsWith "Verification required" (message e) = true.
Proof.
  intros Hu Hw Hok Hjwt Hsigned.
  unfold getProtectedResourceDiscovery, mbind, lift, ret, ky_get.
  rewrite Hu.
  match goal with
  | |- context [requestResourceIdFromIssuer ?i ?p] =>
      destruct (requestResourceId_defined issuer p u
                  (match resourcePath with
                   | Some rp =>
                       if truthy_string rp
                       then ".well-known/oauth-protected-resource/" ++ rp
                       else ".well-known/oauth-protected-resource"
                   | None => ".well-known/oauth-protected-resource"
                   end) Hu) as [id ->]
  end.
  rewrite Hw, Hok, Hjwt. cbn [negb].
  destruct (includes _ _) eqn:Hct.
  - eexists. cbn [fst]. split; [reflexivity|]. split; reflexivity.
  - destruct Hsigned as [|(json & sm & Hparse & Hsm & Htruthy)]; [discriminate|].
    unfold plainOrSignedJson, Net.json, parseJSON.
    rewrite Hparse. cbn [JS.bind]. rewrite Hsm, Htruthy, Hjwt.
    eexists. cbn [fst try_catch]. split; [reflexivity|]. split; reflexivity.
Qed.

(** The binding check on the signed paths: for an issuer given as a
    string, a document that comes from a verified JWT body, or from plain
    JSON merged with its verified [signed_metadata], carries the request
    identifier as its [resource]. *)
Lemma signed_metadata_is_bound s resourcePath options w u res rest d :
  toURL (AString s) = Ok u ->
  responses w = Ok res :: rest ->
  (includes PROTECTED_RESOURCE_DISCOVERY_JWT_MEDIA_TYPE
     (default "" (content_type res)) = true \/
   exists json signed_metadata,
     JSON_parse (body res) = Some (JObj json) /\
     json !! "signed_metadata" = Some signed_metadata /\
     truthy (Some signed_metadata) = true) ->
  (getProtectedResourceDiscovery (AString s) resourcePath options w).1 =
    Ok (Some d) ->
  exists id,
    requestResourceIdFromIssuer (AString s) resourcePath = Ok id /\
    d !! "resource" = Some (JStr id).
Proof.
  intros Hu Hw Hsigned.
  unfold getProtectedResourceDiscovery, mbind, lift, ret, ky_get.
  rewrite Hu.
  destruct (requestResourceIdFromIssuer (AString s) resourcePath) as [id|e];
    [|discriminate].
  rewrite Hw. destruct (ok res); cbn [negb]; [|discriminate].
  destruct (includes _ _) eqn:Hct.
  - destruct (options_jwt options) as [jwtOptions|]; [|discriminate].
    cbn [fst JS.bind text]. intros Hv. exists id. split; [done|].
    by destruct (verifySignedMetadata_binding _ _ _ _ Hv) as [? _].
  - destruct Hsigned as [|(json & sm & Hparse & Hsm & Htruthy)]; [discriminate|].
    unfold plainOrSignedJson, Net.json, parseJSON.
    rewrite Hparse. cbn [JS.bind]. rewrite Hsm, Htruthy.
    destruct (options_jwt options) as [jwtOptions|]; [|discriminate].
    destruct (verifySignedMetadata sm jwtOptions id) as [[merged|]|e] eqn:Hv;
      cbn [JS.bind try_catch fst]; try discriminate.
    + intros [= <-]. exists id. split; [done|].
      destruct (verifySignedMetadata_binding _ _ _ _ Hv) as [Hres _].
      by apply merge_signed_wins.
    + by destruct (_ && _).
Qed.



End DiscoveryClaims.

(** ** Discovery on concrete responses *)

Section DiscoveryScenarios.
Import OAuthDiscovery Fixtures.

#[local] Existing Instance discovery_platform.
#[local] Existing Instance verifier.

(** C1. Plain JSON whose [resource] is another resource than the one
    requested: the binding check is not made on this path, and the
    document is returned. *)
Theorem plain_json_of_other_resource_is_returned :
  requestResourceIdFromIssuer issuer None = Ok RESOURCE_ID /\
  other_resource_doc !! "resource" = Some (JStr "https://other.example.com") /\
  (getProtectedResourceDiscovery issuer None None
     (world [Ok (json_response (JObj other_resource_doc))])).1 =
    Ok (Some other_resource_doc).
Proof. repeat split; vm_compute; reflexivity. Qed.

(** C3. The signed payload has neither [bearer_methods_supported] nor
    [resource_documentation]; the plain document has both. The merged
    result carries the defaults of [payloadToResult], not the plain
    values. *)
Theorem merged_defaults_replace_plain_values :
  minimal_payload !! "bearer_methods_supported" = None /\
  minimal_payload !! "resource_documentation" = None /\
  plain_with_signed_doc !! "bearer_methods_supported" = Some (JArr [JStr "body"]) /\
  plain_with_signed_doc !! "resource_documentation" =
    Some (JStr "https://resource.example.com/json-docs") /\
  exists merged,
    (getProtectedResourceDiscovery issuer None
       (Some (mkOptions (Some (Jwks key_set))))
       (world [Ok (json_response (JObj plain_with_signed_doc))])).1 =
      Ok (Some merged) /\
    merged !! "authorization_servers" = Some (JArr [JStr AS_ISSUER]) /\
    merged !! "bearer_methods_supported" = Some (JArr [JStr "header"]) /\
    merged !! "resource_documentation" = Some (JStr "").
Proof.
  repeat split; try (vm_compute; reflexivity).
  eexists. repeat split; vm_compute; reflexivity.
Qed.

(** The issuer as a URL object: the assignment to [base.pathname] changes
    the object the request identifier is then computed from, so the token
    that is accepted for the string issuer is not bound to the object. *)
Example url_object_issuer_is_rebound :
  let options := Some (mkOptions (Some (Jwks key_set))) in
  requestResourceIdFromIssuer
    (AUrl (set_pathname (mkURL RESOURCE_ID "/" "")
             ".well-known/oauth-protected-resource")) None =
    Ok "https://resource.example.com/.well-known/oauth-protected-resource" /\
  (exists d,
      (getProtectedResourceDiscovery issuer None options
         (world [Ok jwt_response])).1 = Ok (Some d) /\
      d !! "resource" = Some (JStr RESOURCE_ID)) /\
  (getProtectedResourceDiscovery (AUrl (mkURL RESOURCE_ID "/" "")) None options
     (world [Ok jwt_response])).1 = Ok None.
Proof.
  cbv zeta. split; [vm_compute; reflexivity|]. split; [|vm_compute; reflexivity].
  eexists. split; vm_compute; reflexivity.
Qed.

Lemma verification_required_without_policy_witness :
  (exists e,
      (getProtectedResourceDiscovery issuer None None
         (world [Ok (json_response (JObj plain_with_signed_doc))])).1 = Throw e /\
      class e = Error /\
      startsWith "Verification required" (message e) = true) /\
  (exists e,
      (getProtectedResourceDiscovery issuer None (Some (mkOptions None))
         (world [Ok jwt_response])).1 = Throw e /\
      class e = Error /\
      startsWith "Verification required" (message e) = true).
Proof.
  split.
  - apply (verification_required_without_policy issuer None None
             (world [Ok (json_response (JObj plain_with_signed_doc))])
             (mkURL RESOURCE_ID "/" "")
             (json_response (JObj plain_with_signed_doc)) []);
      try (vm_compute; reflexivity).
    right. exists plain_with_signed_doc, (JStr "signed.minimal.token").
    repeat split; vm_compute; reflexivity.
  - apply (verification_required_without_policy issuer None
             (Some (mkOptions None)) (world [Ok jwt_response])
             (mkURL RESOURCE_ID "/" "") jwt_response []);
      try (vm_compute; reflexivity).
    left. vm_compute. reflexivity.
Defined.




End DiscoveryScenarios.

(** ** The flow state [OAuthState] *)

Section FlowStateClaims.
Import OAuthState.
Context `{OpenidClient}.

Lemma fromJSON_toJSON fs rnd : fromJSON (toJSON fs) rnd = fs.
Proof. by destruct fs. Qed.

(** The same through the value that is written to storage. *)
Lemma fromJSON_value_Serialized_value fs rnd :
  fromJSON_value (Some (Serialized_value (toJSON fs))) rnd = fs.
Proof.
  destruct fs as [st no [p|] cv];
    unfold fromJSON_value, options_of_value, Serialized_value, toJSON,
      constructor; simpl; by simplify_map_eq.
Qed.

Lemma getCodeChallenge_fields fs :
  state (getCodeChallenge fs).2 = state fs /\
  nonce (getCodeChallenge fs).2 = nonce fs /\
  codeVerifier (getCodeChallenge fs).2 = codeVerifier fs /\
  _pkce (getCodeChallenge fs).2 = Some (getCodeChallenge fs).1.
Proof.
  unfold getCodeChallenge.
  destruct (_pkce fs) as [p|] eqn:Hp; [destruct (truthy_string p)|];
    simpl; auto.
Qed.

(** C7. Serializing then deserializing a flow state keeps [state],
    [nonce], [codeVerifier] and the memoized challenge, and the restored
    state gives the same code challenge: the stored one when one was
    memoized, the one computed from [codeVerifier] otherwise. *)
Theorem flow_state_roundtrip (fs : t) (rnd : Random) :
  let restored := fromJSON (toJSON fs) rnd in
  state restored = state fs /\
  nonce restored = nonce fs /\
  codeVerifier restored = codeVerifier fs /\
  pkce restored = pkce fs /\
  (getCodeChallenge restored).1 = (getCodeChallenge fs).1 /\
  (getCodeChallenge (fromJSON (toJSON (getCodeChallenge fs).2) rnd)).1 =
    (getCodeChallenge fs).1 /\
  match pkce fs with
  | Some p =>
      if truthy_string p then getCodeChallenge restored = (p, restored)
      else (getCodeChallenge restored).1 =
             calculatePKCECodeChallenge (codeVerifier fs)
  | None =>
      (getCodeChallenge restored).1 =
        calculatePKCECodeChallenge (codeVerifier fs)
  end.
Proof.
  cbv zeta. rewrite !fromJSON_toJSON.
  repeat split.
  - destruct (getCodeChallenge_fields fs) as (_ & _ & Hcv & Hmemo).
    unfold getCodeChallenge at 1. rewrite Hmemo.
    destruct (truthy_string _) eqn:Hfalsy; [done|]. rewrite Hcv.
    revert Hfalsy. unfold getCodeChallenge.
    destruct (_pkce fs) as [p|]; [destruct (truthy_string p) eqn:Hp|];
      simpl; congruence.
  - unfold pkce, getCodeChallenge.
    destruct (_pkce fs) as [p|]; [destruct (truthy_string p)|]; done.
Qed.

End FlowStateClaims.

Section FlowStateRestored.
Import OAuthState.

(** Once a challenge is memoized it is returned as it is, by any
    implementation of [calculatePKCECodeChallenge]: a restored flow state
    does not depend on the process that restores it. *)
Lemma memoized_challenge_is_reused (here there : OpenidClient) fs rnd :
  truthy_string (@getCodeChallenge here fs).1 = true ->
  (@getCodeChallenge there
     (fromJSON (toJSON (@getCodeChallenge here fs).2) rnd)).1 =
    (@getCodeChallenge here fs).1.
Proof.
  intros Htruthy. rewrite fromJSON_toJSON.
  destruct (@getCodeChallenge_fields here fs) as (_ & _ & _ & Hmemo).
  revert Htruthy Hmemo.
  destruct (@getCodeChallenge here fs) as [challenge memo]. simpl.
  intros Htruthy Hmemo.
  unfold getCodeChallenge. by rewrite Hmemo, Htruthy.
Qed.

End FlowStateRestored.

(** ** The orchestrator [OAuthClient] *)

Section ClientFacts.
Import OAuthClient.
Context `{Platform} `{OpenidClient} `{URLSheriff}.

Lemma params_get_object_set o k v k' :
  params_get (object_set o k v) k' =
    if String.eqb k' k then Some v else params_get o k'.
Proof.
  induction o as [|[k0 v0] o IH]; simpl; [done|].
  destruct (String.eqb_spec k k0) as [->|Hne]; simpl.
  - by destruct (String.eqb k' k0).
  - rewrite IH.
    destruct (String.eqb_spec k' k0) as [->|]; [|done].
    destruct (String.eqb_spec k0 k); congruence.
Qed.

Lemma params_get_app p q k :
  params_get (p ++ q)%list k =
    match params_get p k with
    | Some v => Some v
    | None => params_get q k
    end.
Proof.
  induction p as [|[k0 v0] p IH]; simpl; [done|].
  by destruct (String.eqb k k0).
Qed.

(** A spread replaces the properties it names and keeps the others. *)
Lemma params_get_object_spread extra o k :
  params_get (object_spread o extra) k =
    match params_get (rev extra) k with
    | Some v => Some v
    | None => params_get o k
    end.
Proof.
  revert o. induction extra as [|[k0 v0] extra IH]; intros o; [done|].
  unfold object_spread in *. simpl fold_left. rewrite IH.
  simpl rev. rewrite params_get_app, params_get_object_set. simpl.
  destruct (params_get (rev extra) k); [done|].
  by destruct (String.eqb k k0).
Qed.

Lemma params_get_params_delete p k k' :
  params_get (params_delete p k) k' =
    if String.eqb k' k then None else params_get p k'.
Proof.
  induction p as [|[k0 v0] p IH]; simpl; [by destruct (String.eqb k' k)|].
  destruct (String.eqb_spec k k0) as [->|Hne]; simpl.
  - rewrite IH. destruct (String.eqb_spec k' k0); done.
  - rewrite IH.
    destruct (String.eqb_spec k' k0) as [->|]; [|done].
    destruct (String.eqb_spec k0 k); congruence.
Qed.

Lemma params_get_params_set p k v k' :
  params_get (params_set p k v) k' =
    if String.eqb k' k then Some v else params_get p k'.
Proof.
  induction p as [|[k0 v0] p IH]; simpl; [done|].
  destruct (String.eqb_spec k k0) as [->|Hne]; simpl.
  - rewrite params_get_params_delete. by destruct (String.eqb k' k0).
  - rewrite IH.
    destruct (String.eqb_spec k' k0) as [->|]; [|done].
    destruct (String.eqb_spec k0 k); congruence.
Qed.

Lemma authorizationParams_memoized config state challenge sep :
  authorizationParams config (OAuthState.getCodeChallenge state).2 challenge sep =
  authorizationParams config state challenge sep.
Proof.
  destruct (getCodeChallenge_fields state) as (Hst & Hno & _).
  unfold authorizationParams. by rewrite Hst, Hno.
Qed.

End ClientFacts.

Section ClientClaims.
Import OAuthClient.
Context `{Platform} `{OpenidClient} `{URLSheriff}.

(** C8, as amended. The URL that [createAuthorizationUrl] returns is
    built from [authorizationParams]. Without PKCE support these always
    hold [nonce] equal to the flow state's nonce; with PKCE support they
    hold a [nonce] only if the configuration's additional parameters
    supply one. In both cases [code_challenge], [state] and
    [code_challenge_method] are present, with the flow's challenge, the
    flow's state and "S256" unless an additional parameter of that name
    replaces the value. ([supplied k] is the value the additional
    parameters give to [k], the last one if the list names [k] twice.) *)
Theorem authorization_params_spec (c : t) (scopeSeparator : option string) :
  let challenge := (OAuthState.getCodeChallenge (state c)).1 in
  let params :=
    authorizationParams (config c) (state c) challenge
      (default " " scopeSeparator) in
  let supplied k :=
    params_get (rev (OAuthConfig.additionalParams (config c))) k in
  (forall rt url c' rt',
      createAuthorizationUrl c scopeSeparator rt = (Ok url, c', rt') ->
      exists u,
        buildAuthorizationUrl (OAuthConfig.config (config c)) params = Ok u /\
        url = URL_toString u) /\
  (OAuthConfig.supportsPKCE (config c) = false ->
   params_get params "nonce" = Some (OAuthState.nonce (state c))) /\
  (OAuthConfig.supportsPKCE (config c) = true ->
   params_get params "nonce" = supplied "nonce") /\
  params_get params "code_challenge" =
    Some (default challenge (supplied "code_challenge")) /\
  params_get params "state" =
    Some (default (OAuthState.state (state c)) (supplied "state")) /\
  params_get params "code_challenge_method" =
    Some (default "S256" (supplied "code_challenge_method")).
Proof.
  cbv zeta. split.
  { intros rt url c' rt'. unfold createAuthorizationUrl.
    destruct (if bool_decide _ then _ else _) as [safe|e]; [|discriminate].
    destruct (OAuthState.getCodeChallenge (state c)) as [challenge memo] eqn:Hch.
    cbn [userConfig state storage config fst].
    destruct (saveState _ rt) as [[[]|e] rt'']; [|discriminate].
    replace memo with (OAuthState.getCodeChallenge (state c)).2 by by rewrite Hch.
    rewrite authorizationParams_memoized.
    destruct (buildAuthorizationUrl _ _) as [u|e]; [|discriminate].
    intros [= <- _ _]. by exists u. }
  unfold authorizationParams.
  destruct (OAuthConfig.supportsPKCE (config c)); cbn [negb];
    repeat split; try discriminate; intros;
    rewrite ?params_get_params_set; cbn [String.eqb Ascii.eqb Bool.eqb];
    rewrite ?params_get_object_spread;
    match goal with
    | |- context [params_get (rev ?l) ?k] => by destruct (params_get (rev l) k)
    | _ => done
    end.
Qed.

(** [saveState] with a provider that answers at once: the outcome of
    [save] is the outcome of [saveState], and the backend is as [save]
    left it. *)
Lemma saveState_settled c rt provider r s :
  storage c = Some provider ->
  save provider (stateKey (OAuthState.state (state c))) (stateRecord c) (store rt)
    = (Now r, s) ->
  saveState c rt = (r, mkRuntime (NODE_ENV rt) s (detached rt)).
Proof. intros Hsp Hsave. unfold saveState. by rewrite Hsp, Hsave. Qed.

(** [saveState] with a provider that returns a promise: whatever the
    promise will do, [saveState] resolves; the promise is left behind. *)
Lemma saveState_pending c rt provider p s :
  storage c = Some provider ->
  save provider (stateKey (OAuthState.state (state c))) (stateRecord c) (store rt)
    = (Later p, s) ->
  saveState c rt = (Ok tt, mkRuntime (NODE_ENV rt) s (detached rt ++ [p])%list).
Proof. intros Hsp Hsave. unfold saveState. by rewrite Hsp, Hsave. Qed.

(** With the memory provider the record is in the backend when the URL
    is returned. *)
Lemma createAuthorizationUrl_memory_saved c scopeSeparator rt url c' rt' :
  storage c = Some MemoryStorageProvider ->
  createAuthorizationUrl c scopeSeparator rt = (Ok url, c', rt') ->
  store rt' !! stateKey (OAuthState.state (state c')) = Some (stateRecord c') /\
  detached rt' = detached rt.
Proof.
  intros Hsp. unfold createAuthorizationUrl.
  destruct (if bool_decide _ then _ else _) as [safe|e]; [|discriminate].
  destruct (OAuthState.getCodeChallenge (state c)) as [challenge memo].
  unfold saveState. cbn [userConfig state storage config]. rewrite Hsp.
  cbn [save MemoryStorageProvider].
  destruct (buildAuthorizationUrl _ _) as [u|e]; [|discriminate].
  intros [= _ <- <-]. cbn [store detached state]. split; [|done].
  by rewrite lookup_insert_eq.
Qed.


(** A client error of the grant becomes an [OAuthClientError] with the
    error as cause and the parsed body of its [HTTPError] as reason. *)
Lemma getTokensFromCodeGrant_client_error c url u e http body reason :
  toURL url = Ok u ->
  authorizationCodeGrant (OAuthConfig.config (config c)) u
    (mkChecks (OAuthState.state (state c)) (OAuthState.codeVerifier (state c))
       (OAuthState.nonce (state c))) = Throw e ->
  class e = ClientError ->
  cause e = Some http -> class http = HTTPError ->
  response_body http = Some body -> JSON_parse body = Some reason ->
  getTokensFromCodeGrant c url =
    Throw (mkExn OAuthClientError "Failed to get tokens from code grant"
             (Some e) None (Some reason)).
Proof.
  intros Hu Hgrant Hclass Hcause Hhttp Hbody Hparse.
  unfold getTokensFromCodeGrant, instanceof, parseJSON.
  by rewrite Hu; cbn [JS.bind]; rewrite Hgrant; cbn [JS.bind try_catch];
    rewrite Hclass, Hcause, Hhttp, Hbody, Hparse.
Qed.

Lemma getTokensFromCodeGrant_client_error_no_body c url u e :
  toURL url = Ok u ->
  authorizationCodeGrant (OAuthConfig.config (config c)) u
    (mkChecks (OAuthState.state (state c)) (OAuthState.codeVerifier (state c))
       (OAuthState.nonce (state c))) = Throw e ->
  class e = ClientError ->
  cause e = None ->
  getTokensFromCodeGrant c url =
    Throw (mkExn OAuthClientError "Failed to get tokens from code grant"
             (Some e) None None).
Proof.
  intros Hu Hgrant Hclass Hcause.
  unfold getTokensFromCodeGrant, instanceof.
  by rewrite Hu; cbn [JS.bind]; rewrite Hgrant; cbn [JS.bind try_catch];
    rewrite Hclass, Hcause.
Qed.

(** Any other failure of the grant is caught and not thrown again: the
    call resolves to [undefined]. *)
Lemma getTokensFromCodeGrant_other_failure c url u e :
  toURL url = Ok u ->
  authorizationCodeGrant (OAuthConfig.config (config c)) u
    (mkChecks (OAuthState.state (state c)) (OAuthState.codeVerifier (state c))
       (OAuthState.nonce (state c))) = Throw e ->
  instanceof ClientError e = false ->
  getTokensFromCodeGrant c url = Ok None.
Proof.
  intros Hu Hgrant Hclass. unfold getTokensFromCodeGrant.
  by rewrite Hu; cbn [JS.bind]; rewrite Hgrant; cbn [JS.bind try_catch];
    rewrite Hclass.
Qed.


Lemma fromStorage_unparsable storage ConfigClass StateClass key rnd rt s entry :
  await (get storage (stateKey key) (store rt)) = (Ok (Some entry), s) ->
  truthy_string entry = true ->
  JSON_parse entry = None ->
  (fromStorage storage ConfigClass StateClass key rnd rt).1 =
    Throw (mkExn Error "Invalid state entry"
             (Some (new_Error SyntaxError "JSON Parse error")) None None).
Proof.
  intros Hget Htruthy Hparse. unfold fromStorage, restore, parseJSON.
  by rewrite Hget; cbn [JS.bind]; rewrite Htruthy, Hparse.
Qed.

Lemma fromStorage_neither storage ConfigClass StateClass key rnd rt s entry o :
  await (get storage (stateKey key) (store rt)) = (Ok (Some entry), s) ->
  truthy_string entry = true ->
  JSON_parse entry = Some (JObj o) ->
  o !! "state" = None -> o !! "config" = None ->
  (fromStorage storage ConfigClass StateClass key rnd rt).1 =
    Throw (new_Error OAuthStateError ("State " ++ key ++ " is invalid")).
Proof.
  intros Hget Htruthy Hparse Hstate Hconfig.
  unfold fromStorage, restore, parseJSON.
  by rewrite Hget; cbn [JS.bind]; rewrite Htruthy, Hparse; cbn [JS.bind];
    rewrite Hstate, Hconfig.
Qed.

(** An entry with one of the two sub-records passes the check: the
    factories are called, the missing one on [undefined]. *)
Lemma fromStorage_one_missing
    storage ConfigClass StateClass key rnd rt s entry o state config :
  await (get storage (stateKey key) (store rt)) = (Ok (Some entry), s) ->
  truthy_string entry = true ->
  JSON_parse entry = Some (JObj o) ->
  is_Some (o !! "state") \/ is_Some (o !! "config") ->
  StateClass_fromJSON StateClass (o !! "state") rnd = Ok state ->
  ConfigClass_fromJSON ConfigClass (o !! "config") = Ok config ->
  (fromStorage storage ConfigClass StateClass key rnd rt).1 =
    Ok (constructor config state (Some storage)).
Proof.
  intros Hget Htruthy Hparse Hone Hstate Hconfig.
  unfold fromStorage, restore, parseJSON.
  rewrite Hget; cbn [JS.bind]; rewrite Htruthy, Hparse; cbn [JS.bind negb truthy].
  assert (negb (bool_decide (is_Some (o !! "state"))) &&
          negb (bool_decide (is_Some (o !! "config"))) = false) as ->.
  { destruct Hone as [Hs|Hc].
    - by rewrite (bool_decide_eq_true_2 _ Hs).
    - rewrite (bool_decide_eq_true_2 _ Hc). by rewrite andb_false_r. }
  by rewrite Hstate; cbn [JS.bind]; rewrite Hconfig.
Qed.

End ClientClaims.

(** ** The orchestrator on concrete flows *)

Section ClientScenarios.
Import OAuthClient Fixtures.

#[local] Existing Instance client_platform.
#[local] Existing Instance sheriff.

(** C4. The token endpoint cannot be reached: the grant fails with an
    error that is not a client error, and [getTokensFromCodeGrant]
    resolves to [undefined] instead of failing with that error. *)
Theorem other_grant_failure_resolves_to_undefined :
  instanceof ClientError network_failure = false /\
  @getTokensFromCodeGrant client_platform (openid (Throw network_failure))
    (client true [] None) callback = Ok None.
Proof. split; vm_compute; reflexivity. Qed.

Example client_error_is_wrapped :
  @getTokensFromCodeGrant client_platform (openid (Throw invalid_grant))
    (client true [] None) callback =
    Throw (mkExn OAuthClientError "Failed to get tokens from code grant"
             (Some invalid_grant) None (Some error_body)).
Proof. vm_compute. reflexivity. Qed.

#[local] Existing Instance token_endpoint.

(** C5. Storage is a Redis provider. When the URL is returned the record
    is not in the backend yet: the save is a promise nobody awaits. With
    a client whose connection is closed that promise rejects after the
    caller has its URL, and the caller is not told. *)
Theorem url_returned_before_redis_save_settles :
  let key := "ez-oauth:core_oauth_state:state-1" in
  (let '(r, _, rt) :=
     createAuthorizationUrl
       (client true [] (Some (@RedisStorageProvider redis redis_options)))
       None idle in
   is_ok r = true /\
   store rt !! key = None /\
   length (detached rt) = 1 /\
   is_Some ((settle (detached rt) (store rt)).2 !! key)) /\
  (let '(r, _, rt) :=
     createAuthorizationUrl
       (client true [] (Some (@RedisStorageProvider closed_redis redis_options)))
       None idle in
   is_ok r = true /\
   store rt !! key = None /\
   settle (detached rt) (store rt) =
     ([Throw (new_Error Error "The client is closed")], ∅)).
Proof.
  split; vm_compute; repeat split; try reflexivity. by eexists.
Qed.

Example memory_save_settles_before_the_url :
  let '(r, _, rt) :=
    createAuthorizationUrl (client true [] (Some MemoryStorageProvider))
      None idle in
  is_ok r = true /\
  is_Some (store rt !! "core_oauth_state:state-1") /\
  detached rt = [].
Proof. vm_compute. repeat split; try reflexivity. by eexists. Qed.

(** C6. The stored entry parses and holds a [config] sub-record but no
    [state]: the check passes, and an orchestrator is built around a
    flow state made of fresh random values. *)
Theorem entry_without_state_is_restored :
  let rt :=
    mkRuntime None {[ stateKey "abc" := stringify config_only_entry ]} [] in
  JSON_parse (stringify config_only_entry) = Some config_only_entry /\
  (exists o, config_only_entry = JObj o /\
             o !! "state" = None /\ is_Some (o !! "config")) /\
  (fromStorage MemoryStorageProvider OAuthConfigClass OAuthStateClass
     "abc" fresh rt).1 =
    Ok (mk (OAuthConfig.mkConfig "OAuthConfig"
              (mkConfiguration (server_metadata true) client_metadata)
              (mkURL "https://app.example.com" "/callback" "") true [] [])
          (OAuthState.mk "random-state" "random-nonce" None "random-verifier")
          (Some MemoryStorageProvider)).
Proof.
  cbv zeta. split; [vm_compute; reflexivity|]. split.
  - eexists. split; [reflexivity|]. split; [vm_compute; reflexivity|].
    vm_compute. by eexists.
  - vm_compute. reflexivity.
Qed.

Example entry_without_config_fails_in_the_factory :
  let rt :=
    mkRuntime None {[ stateKey "abc" := stringify state_only_entry ]} [] in
  (fromStorage MemoryStorageProvider OAuthConfigClass OAuthStateClass
     "abc" fresh rt).1 =
    Throw (new_Error TypeError
             "undefined is not an object (evaluating 'json.server')").
Proof. vm_compute. reflexivity. Qed.

(** C8, as stated, fails: the configuration supports PKCE and its
    additional parameters name [nonce] and [code_challenge_method]; both
    reach the query. *)
Lemma additional_params_reach_the_query :
  let c :=
    client true [("nonce", "n-from-config"); ("code_challenge_method", "plain")]
      None in
  OAuthConfig.supportsPKCE (config c) = true /\
  (createAuthorizationUrl c None idle).1.1 =
    Ok "https://as.example.com/authorize?redirect_uri=https://app.example.com/callback&scope=openid email&code_challenge=S256(verifier-1)&state=state-1&code_challenge_method=plain&nonce=n-from-config" /\
  let params :=
    authorizationParams (config c) (state c)
      (OAuthState.getCodeChallenge (state c)).1 " " in
  params_get params "nonce" = Some "n-from-config" /\
  params_get params "code_challenge_method" = Some "plain".
Proof. vm_compute. repeat split; reflexivity. Qed.

Lemma authorization_params_spec_witness :
  let without_pkce := client false [("prompt", "consent")] None in
  let with_pkce := client true [("prompt", "consent")] None in
  let params c :=
    authorizationParams (config c) (state c)
      (OAuthState.getCodeChallenge (state c)).1 (default " " None) in
  (exists u,
      buildAuthorizationUrl (OAuthConfig.config (config with_pkce))
        (params with_pkce) = Ok u /\
      "https://as.example.com/authorize?redirect_uri=https://app.example.com/callback&scope=openid email&code_challenge=S256(verifier-1)&state=state-1&code_challenge_method=S256&prompt=consent"
        = URL_toString u) /\
  params_get (params without_pkce) "nonce" = Some "nonce-1" /\
  params_get (params with_pkce) "nonce" = None /\
  params_get (params with_pkce) "code_challenge" = Some "S256(verifier-1)" /\
  params_get (params with_pkce) "state" = Some "state-1" /\
  params_get (params with_pkce) "code_challenge_method" = Some "S256".
Proof.
  cbv zeta.
  destruct (authorization_params_spec (client false [("prompt", "consent")] None) None)
    as (_ & Hnonce & _).
  destruct (authorization_params_spec (client true [("prompt", "consent")] None) None)
    as (Hurl & _ & Hnone & Hchallenge & Hstate & Hmethod).
  split; [|split; [|split; [|split; [|split]]]].
  - apply (Hurl idle _ (createAuthorizationUrl
                          (client true [("prompt", "consent")] None) None idle).1.2
             (createAuthorizationUrl
                (client true [("prompt", "consent")] None) None idle).2).
    vm_compute. reflexivity.
  - apply Hnonce. reflexivity.
  - rewrite Hnone by reflexivity. vm_compute. reflexivity.
  - rewrite Hchallenge. vm_compute. reflexivity.
  - rewrite Hstate. vm_compute. reflexivity.
  - rewrite Hmethod. vm_compute. reflexivity.
Defined.

End ClientScenarios.

(** * Further properties *)

(** ** Discovery: requests, errors and verified claims *)

Section DiscoveryBehaviour.
Import OAuthDiscovery.
Context `{Platform} `{Jose}.

Lemma strip_trailing_slash_app s : strip_trailing_slash (s ++ "/") = s.
Proof.
  induction s as [|c s IH]; [reflexivity|].
  simpl. rewrite IH. by destruct s.
Qed.

(** X1. The request identifier does not depend on one trailing slash of
    the issuer's path: a URL whose path is [p] followed by a slash has the
    identifier of the URL whose path is [p], when [p] does not itself end
    with a slash. *)
Theorem requestResourceId_trailing_slash o p q q' resourcePath :
  strip_trailing_slash (o ++ p) = o ++ p ->
  requestResourceIdFromIssuer (AUrl (mkURL o (p ++ "/") q)) resourcePath =
  requestResourceIdFromIssuer (AUrl (mkURL o p q')) resourcePath.
Proof.
  intros Hp. unfold requestResourceIdFromIssuer. cbn [toURL JS.bind origin pathname].
  assert (o ++ (p ++ "/") = (o ++ p) ++ "/") as ->.
  { clear. induction o as [|c o IH]; [reflexivity|].
    change (String c (o ++ (p ++ "/")) = String c ((o ++ p) ++ "/")).
    by f_equal. }
  by rewrite strip_trailing_slash_app, Hp.
Qed.


(** X3. On the JSON path (a 2xx answer whose content type is not the JWT
    media type) the only errors that come out are "Invalid protected
    resource discovery: " followed by the URL of the response, and errors
    whose message starts with "Verification required": a body that is not
    JSON, a body that is [null], and any failure while verifying
    [signed_metadata] are all reported as the former. *)
Theorem json_path_errors issuer resourcePath options w u res rest e :
  toURL issuer = Ok u ->
  responses w = Ok res :: rest ->
  ok res = true ->
  includes PROTECTED_RESOURCE_DISCOVERY_JWT_MEDIA_TYPE
    (default "" (content_type res)) = false ->
  (getProtectedResourceDiscovery issuer resourcePath options w).1 = Throw e ->
  e = new_Error Error ("Invalid protected resource discovery: " ++ url res) \/
  (instanceof_Error e = true /\
   startsWith "Verification required" (message e) = true).
Proof.
  intros Hu Hw Hok Hct.
  unfold getProtectedResourceDiscovery, mbind, lift, ret, ky_get.
  rewrite Hu.
  destruct (requestResourceId_defined issuer resourcePath u
              (wellKnownPath resourcePath) Hu) as [id Hid].
  unfold wellKnownPath in *. rewrite Hid, Hw, Hok, Hct. cbn [negb fst].
  destruct (plainOrSignedJson res options id) as [r|e'];
    cbn [try_catch]; [discriminate|].
  destruct (instanceof_Error e' && startsWith "Verification required" (message e'))
    eqn:Hkeep; intros [= <-]; [|by left].
  right. by apply andb_true_iff in Hkeep.
Qed.

(** X4. Verification fails closed on both paths. With the JWT media type
    the failure of the verification is thrown as it is. With
    [signed_metadata] in plain JSON the call throws as well, and never
    falls back to the plain claims; the failure is replaced by "Invalid
    protected resource discovery" unless its message starts with
    "Verification required". *)
Theorem verification_failure_is_thrown
    issuer resourcePath options jwtOptions w u res rest id e :
  toURL issuer = Ok u ->
  requestResourceIdFromIssuer
    (match issuer with
     | AUrl _ => AUrl (set_pathname u (wellKnownPath resourcePath))
     | AString s => AString s
     end) resourcePath = Ok id ->
  responses w = Ok res :: rest ->
  ok res = true ->
  options_jwt options = Some jwtOptions ->
  (includes PROTECTED_RESOURCE_DISCOVERY_JWT_MEDIA_TYPE
     (default "" (content_type res)) = true ->
   verifySignedMetadata (JStr (body res)) jwtOptions id = Throw e ->
   (getProtectedResourceDiscovery issuer resourcePath options w).1 = Throw e) /\
  (forall json signed_metadata,
      includes PROTECTED_RESOURCE_DISCOVERY_JWT_MEDIA_TYPE
        (default "" (content_type res)) = false ->
      JSON_parse (body res) = Some (JObj json) ->
      json !! "signed_metadata" = Some signed_metadata ->
      truthy (Some signed_metadata) = true ->
      verifySignedMetadata signed_metadata jwtOptions id = Throw e ->
      (getProtectedResourceDiscovery issuer resourcePath options w).1 =
        Throw (if instanceof_Error e &&
                  startsWith "Verification required" (message e)
               then e
               else new_Error Error
                      ("Invalid protected resource discovery: " ++ url res))).
Proof.
  intros Hu Hid Hw Hok Hjwt.
  unfold getProtectedResourceDiscovery, mbind, lift, ret, ky_get.
  unfold wellKnownPath in Hid. rewrite Hu, Hid, Hw, Hok, Hjwt. cbn [negb].
  split.
  - intros -> Hv. cbn [text JS.bind fst]. by rewrite Hv.
  - intros json sm -> Hparse Hsm Htruthy Hv.
    unfold plainOrSignedJson, Net.json, parseJSON.
    rewrite Hparse. cbn [JS.bind]. rewrite Hsm, Htruthy, Hjwt, Hv.
    cbn [JS.bind try_catch fst]. by destruct (_ && _).
Qed.


End DiscoveryBehaviour.

(** ** Signed metadata: the key callback and the shape of the result *)

Section SignedMetadataBehaviour.
Import OAuthDiscovery.

(** X6. With a [getKey] policy the unverified token is read for its
    [iss] only: two decoders that agree on [iss] give the same outcome,
    whatever else the unverified payload says. When [iss] is not a string
    the outcome is [null], and neither the callback nor the verification
    can make the call fail. *)
Theorem unverified_claims_only_select_the_key
    (P : Platform) (J1 J2 : Jose) jwt getKey requestResourceId p1 p2 :
  (forall token key, @jwtVerify J1 token key = @jwtVerify J2 token key) ->
  @decodeJwt J1 jwt = Ok p1 ->
  @decodeJwt J2 jwt = Ok p2 ->
  p1 !! "iss" = p2 !! "iss" ->
  @verifySignedMetadata P J1 jwt (GetKey getKey) requestResourceId =
  @verifySignedMetadata P J2 jwt (GetKey getKey) requestResourceId /\
  ((forall iss, p1 !! "iss" <> Some (JStr iss)) ->
   @verifySignedMetadata P J1 jwt (GetKey getKey) requestResourceId = Ok None).
Proof.
  intros Hverify Hd1 Hd2 Hiss.
  unfold verifySignedMetadata, verifiedPayload.
  rewrite Hd1, Hd2. cbn [JS.bind]. rewrite <- Hiss. split.
  - destruct (p1 !! "iss") as [[| | |iss| |]|]; try reflexivity.
    destruct (getKey iss) as [key|e]; cbn [JS.bind]; [|reflexivity].
    by rewrite Hverify.
  - intros Hno.
    destruct (p1 !! "iss") as [[| | |iss| |]|]; try reflexivity.
    by destruct (Hno iss).
Qed.

Context `{Platform} `{Jose}.

Lemma spread_if_lookup_eq k v (o : Metadata) :
  spread_if k v o !! k = if truthy v then v else o !! k.
Proof.
  unfold spread_if. destruct v as [x|]; [|done].
  destruct (truthy (Some x)); [|done]. by rewrite lookup_insert_eq.
Qed.

(** X7. What [payloadToResult] returns holds the four required
    properties, [bearer_methods_supported] as a non-empty array and
    [resource_documentation] as a string, and no property outside the six
    of the result type: [iss] and every other claim of the token are
    dropped. *)
Theorem payloadToResult_shape payload result :
  payloadToResult payload = Some result ->
  (exists resource first others method methods documentation,
      result !! "resource" = Some (JStr resource) /\
      result !! "authorization_servers" = Some (JArr (first :: others)) /\
      result !! "bearer_methods_supported" = Some (JArr (method :: methods)) /\
      result !! "resource_documentation" = Some (JStr documentation)) /\
  (forall k,
      is_Some (result !! k) ->
      k ∈ ["resource"; "authorization_servers"; "bearer_methods_supported";
           "resource_documentation"; "resource_endpoints";
           "resource_signing_alg_values_supported"]).
Proof.
  intros Hp. split.
  - destruct (payloadToResult_required _ _ Hp)
      as (resource & first & others & _ & _ & Hr & Hs).
    pose proof (payloadToResult_bearer _ _ Hp) as Hb.
    pose proof (payloadToResult_documentation _ _ Hp) as Hd.
    exists resource, first, others.
    destruct (payload !! "bearer_methods_supported") as [[| | | |[|b bs]|]|];
      destruct (payload !! "resource_documentation") as [[| | |d| |]|];
      eauto 10.
  - intros k [v Hv]. unfold payloadToResult in Hp.
    destruct (payload !! "resource") as [[| | |resource| |]|]; try discriminate.
    destruct (payload !! "authorization_servers") as [[| | | |[|first others]|]|];
      try discriminate.
    injection Hp as <-.
    destruct (decide (k = "resource_signing_alg_values_supported")) as [->|];
      [set_solver|].
    destruct (decide (k = "resource_endpoints")) as [->|]; [set_solver|].
    rewrite !spread_if_lookup_ne in Hv by done.
    destruct (decide (k = "resource")) as [->|]; [set_solver|].
    destruct (decide (k = "authorization_servers")) as [->|]; [set_solver|].
    destruct (decide (k = "bearer_methods_supported")) as [->|]; [set_solver|].
    destruct (decide (k = "resource_documentation")) as [->|]; [set_solver|].
    by rewrite !lookup_insert_ne, lookup_empty in Hv.
Qed.

Lemma payloadToResult_optional payload result :
  payloadToResult payload = Some result ->
  result !! "resource_endpoints" =
    (if truthy (payload !! "resource_endpoints")
     then payload !! "resource_endpoints" else None) /\
  result !! "resource_signing_alg_values_supported" =
    (if truthy (payload !! "resource_signing_alg_values_supported")
     then payload !! "resource_signing_alg_values_supported" else None).
Proof.
  unfold payloadToResult. intros Hp.
  destruct (payload !! "resource") as [[| | |resource| |]|]; try discriminate.
  destruct (payload !! "authorization_servers") as [[| | | |[|first others]|]|];
    try discriminate.
  injection Hp as <-. split.
  - rewrite spread_if_lookup_ne by done. rewrite spread_if_lookup_eq.
    destruct (truthy (payload !! "resource_endpoints")); [done|].
    by simplify_map_eq.
  - rewrite spread_if_lookup_eq.
    destruct (truthy (payload !! "resource_signing_alg_values_supported"));
      [done|].
    rewrite spread_if_lookup_ne by done. by simplify_map_eq.
Qed.

(** X8. [payloadToResult] changes nothing in a result it has made. *)
Theorem payloadToResult_idempotent payload result :
  payloadToResult payload = Some result ->
  payloadToResult result = Some result.
Proof.
  intros Hp.
  destruct (payloadToResult_required _ _ Hp)
    as (resource & first & others & Hpr & Hps & Hr & Hs).
  pose proof (payloadToResult_bearer _ _ Hp) as Hb.
  pose proof (payloadToResult_documentation _ _ Hp) as Hd.
  destruct (payloadToResult_optional _ _ Hp) as [He Ha].
  unfold payloadToResult at 1. rewrite Hr, Hs, Hb, Hd, He, Ha.
  unfold payloadToResult in Hp. rewrite Hpr, Hps in Hp. rewrite <- Hp.
  f_equal.
  assert (Hspread : forall k v (o : Metadata),
             spread_if k (if truthy v then v else None) o = spread_if k v o).
  { intros k v o. destruct (truthy v) eqn:Ht; [done|].
    unfold spread_if. destruct v as [x|]; [|done]. by rewrite Ht. }
  rewrite !Hspread.
  destruct (payload !! "bearer_methods_supported") as [[| | | |[|b bs]|]|];
    destruct (payload !! "resource_documentation") as [[| | |d| |]|];
    reflexivity.
Qed.

End SignedMetadataBehaviour.

(** ** [discover] and [dcr] *)

Section DiscoverBehaviour.
Import OAuthDiscovery OAuthDiscoveryEntry.
Context `{Platform} `{Jose} `{OpenidDiscovery} `{OpenidClient}.

(** X9. [OAuthDiscovery.discover] and [OAuthDiscovery.dcr] with the
    "protected-resource" algorithm: when the metadata request gives
    [null] both fail with the assertion error and openid-client is not
    consulted; when it gives a document, discovery runs against the first
    authorization server with the algorithm "oauth2", and registration
    against the same server. *)
Theorem discover_protected_resource issuer options registration w discovered w' :
  algorithm options = Some protected_resource ->
  dcr_algorithm registration = Some protected_resource ->
  dcr_protectedResourceJwt registration = protectedResourceJwt options ->
  getProtectedResourceDiscovery issuer None
    (match protectedResourceJwt options with
     | Some j => Some (mkOptions (Some j))
     | None => None
     end) w = (Ok discovered, w') ->
  match discovered with
  | None =>
      discover issuer options w =
        (Throw (new_Error AssertionError "No authorization servers found"), w') /\
      dcr issuer registration w =
        (Throw (new_Error AssertionError "No authorization servers found"), w')
  | Some d =>
      exists first others,
        d !! "authorization_servers" = Some (JArr (first :: others)) /\
        discover issuer options w =
          (let* server := URL_of first in
           discovery server (clientId options) (clientSecret options)
             (Some oauth2), w') /\
        dcr issuer registration w =
          (let* server := URL_of first in
           dynamicClientRegistration server (JObj ∅), w')
  end.
Proof.
  intros Ha Hda Hjwt Hcall.
  unfold discover, dcr, resolveAuthorizationServerUrl.
  rewrite Ha, Hda, Hjwt.
  change (default oidc (Some protected_resource)) with protected_resource.
  cbv beta iota zeta.
  change (default oidc (Some protected_resource)) with protected_resource.
  cbv beta iota zeta. unfold mbind. rewrite Hcall.
  destruct discovered as [d|]; [|done].
  destruct (getProtectedResourceDiscovery_servers _ _ _ _ _ _ Hcall)
    as (first & others & Hservers).
  exists first, others. split; [done|].
  unfold lift, firstAuthorizationServer. rewrite Hservers.
  by destruct (URL_of first).
Qed.

(** X10. With "oidc", "oauth2" or no algorithm, [discover] issues no
    metadata request and asks openid-client for that algorithm ("oidc"
    when none is given) at the issuer; an issuer that is not a URL fails
    before openid-client is consulted. *)
Theorem discover_by_issuer issuer options w :
  algorithm options <> Some protected_resource ->
  discover issuer options w =
    (let* server := toURL issuer in
     discovery server (clientId options) (clientSecret options)
       (Some (default oidc (algorithm options))), w).
Proof.
  intros Ha. unfold discover, resolveAuthorizationServerUrl, mbind, lift.
  destruct (algorithm options) as [[| |]|]; try done;
    cbn [default from_option id]; by destruct (toURL issuer).
Qed.

End DiscoverBehaviour.

(** ** The cached discovery of OAuthConfig.ts *)

Section CacheBehaviour.
Context `{Platform}.

Lemma find_remove_ne k k' es :
  k <> k' -> LRUCache.find k (LRUCache.remove k' es) = LRUCache.find k es.
Proof.
  intros Hne. unfold LRUCache.remove.
  induction es as [|[k0 e] es IH]; [done|].
  destruct (String.eqb_spec k' k0) as [->|Hk0].
  - rewrite filter_cons_False by (simpl; rewrite String.eqb_refl; by intros []).
    rewrite IH. simpl. by destruct (String.eqb_spec k k0).
  - rewrite filter_cons_True
      by (simpl; by destruct (String.eqb_spec k' k0)).
    simpl. by rewrite IH.
Qed.

Lemma find_removelast k es e :
  LRUCache.find k (removelast es) = Some e -> LRUCache.find k es = Some e.
Proof.
  induction es as [|[k0 e0] es IH]; [done|].
  destruct es as [|e1 es]; [done|].
  change (removelast ((k0, e0) :: e1 :: es))
    with ((k0, e0) :: removelast (e1 :: es)).
  change (LRUCache.find k ((k0, e0) :: removelast (e1 :: es)))
    with (if String.eqb k k0 then Some e0
          else LRUCache.find k (removelast (e1 :: es))).
  change (LRUCache.find k ((k0, e0) :: e1 :: es))
    with (if String.eqb k k0 then Some e0 else LRUCache.find k (e1 :: es)).
  destruct (String.eqb k k0); [done|]. apply IH.
Qed.

Lemma has_later (c : LRUCache.t) now now' k :
  LRUCache.has c now k = false -> (now <= now')%Z ->
  LRUCache.has c now' k = false.
Proof.
  unfold LRUCache.has, LRUCache.stale.
  destruct (LRUCache.find k (LRUCache.entries c)) as [[v start]|]; [|done].
  intros Hstale Hle.
  apply negb_false_iff, Z.ltb_lt in Hstale.
  apply negb_false_iff, Z.ltb_lt. lia.
Qed.

Lemma has_set_same (c : LRUCache.t) now now' k v :
  LRUCache.has (LRUCache.set c now k v) now' k =
    negb (LRUCache.ttl c <? now' - now)%Z.
Proof.
  unfold LRUCache.has, LRUCache.set, LRUCache.stale. simpl.
  by rewrite String.eqb_refl.
Qed.

Lemma has_set_other (c : LRUCache.t) now now' k k' v :
  k <> k' ->
  LRUCache.has (LRUCache.set c now k' v) now' k = true ->
  LRUCache.has c now' k = true.
Proof.
  intros Hne. unfold LRUCache.has, LRUCache.set, LRUCache.stale. simpl.
  destruct (String.eqb_spec k k') as [|_]; [done|].
  match goal with
  | |- context [LRUCache.find k ?es] =>
      destruct (LRUCache.find k es) as [[v' start]|] eqn:Hfind; [|done]
  end.
  assert (LRUCache.find k (LRUCache.entries c) = Some (v', start)) as ->; [|done].
  rewrite <- (find_remove_ne k k') by done.
  destruct (_ <=? _)%nat; [by apply find_removelast|done].
Qed.

(** X11. A document fetched for an issuer given as a string is served
    again from the cache while it is not older than the time to live: the
    later call returns the same document, issues no request and consumes
    no response. *)
Theorem cached_document_is_served s cache w u res rest json :
  toURL (AString s) = Ok u ->
  LRUCache.has cache (clock w) s = false ->
  responses w = Ok res :: rest ->
  ok res = true ->
  match content_type res with
  | Some ct =>
      includes OAuthDiscovery.PROTECTED_RESOURCE_DISCOVERY_JWT_MEDIA_TYPE ct
  | None => false
  end = false ->
  JSON_parse (body res) = Some json ->
  exists cache1 w1,
    OAuthConfig.getProtectedResourceDiscovery (AString s) cache w =
      (Ok (Some json), cache1, w1) /\
    forall w2,
      (clock w2 - clock w <= LRUCache.ttl cache)%Z ->
      exists cache2,
        OAuthConfig.getProtectedResourceDiscovery (AString s) cache1 w2 =
          (Ok (Some json), cache2, w2).
Proof.
  intros Hu Hmiss Hw Hok Hct Hparse.
  unfold OAuthConfig.getProtectedResourceDiscovery at 1.
  cbn [toString]. rewrite Hmiss, Hu. unfold ky_get. rewrite Hw, Hok, Hct.
  unfold Net.json, parseJSON. rewrite Hparse. cbn [clock].
  eexists _, _. split; [reflexivity|].
  intros w2 Hfresh. unfold OAuthConfig.getProtectedResourceDiscovery.
  cbn [toString]. rewrite has_set_same.
  assert ((LRUCache.ttl cache <? clock w2 - clock w)%Z = false) as Hlt
      by (apply Z.ltb_ge; lia).
  rewrite Hlt. cbn [negb].
  unfold LRUCache.get, LRUCache.set, LRUCache.stale.
  cbn [LRUCache.entries LRUCache.find LRUCache.ttl LRUCache.max].
  rewrite String.eqb_refl, Hlt. by eexists.
Qed.

(** X12. Only a parsed 2xx answer enters the cache: a call that returns
    [null] or fails leaves the cache as it was. *)
Theorem failed_discovery_is_not_cached issuer cache w r cache' w' :
  OAuthConfig.getProtectedResourceDiscovery issuer cache w = (r, cache', w') ->
  (forall json, r <> Ok (Some json)) ->
  cache' = cache.
Proof.
  unfold OAuthConfig.getProtectedResourceDiscovery.
  destruct (LRUCache.has cache (clock w) (toString issuer)) eqn:Hhas.
  - unfold LRUCache.has in Hhas. unfold LRUCache.get.
    destruct (LRUCache.find _ _) as [[v start]|]; [|discriminate].
    apply negb_true_iff in Hhas. rewrite Hhas.
    intros [= <- _ _] Hno. by destruct (Hno v).
  - destruct (toURL issuer) as [u|e]; [|by intros [= _ <- _]].
    destruct (ky_get _ _ w) as [[res|e] w1]; [|by intros [= _ <- _]].
    destruct (ok res); [|by intros [= _ <- _]].
    destruct (match content_type res with Some _ => _ | None => _ end);
      [by intros [= _ <- _]|].
    destruct (Net.json res) as [json|e]; [|by intros [= _ <- _]].
    intros [= <- _ _] Hno. by destruct (Hno json).
Qed.

(** X13. An issuer given as a URL object never answers from the cache
    under its own address: the entry is written after [pathname] was
    reassigned, under the address of the well-known document. Whatever the
    outcome of the call, a later lookup of the issuer's address misses as
    it did before. *)
Theorem url_object_issuer_is_not_cached u cache w now' :
  URL_toString u <>
    URL_toString (set_pathname u ".well-known/oauth-protected-resource") ->
  LRUCache.has cache (clock w) (URL_toString u) = false ->
  (clock w <= now')%Z ->
  LRUCache.has
    (OAuthConfig.getProtectedResourceDiscovery (AUrl u) cache w).1.2
    now' (URL_toString u) = false.
Proof.
  intros Hne Hmiss Hle.
  pose proof (has_later _ _ _ _ Hmiss Hle) as Hlater.
  unfold OAuthConfig.getProtectedResourceDiscovery.
  cbn [toString toURL]. rewrite Hmiss.
  destruct (ky_get _ _ w) as [[res|e] w1] eqn:Hget; [|done].
  assert (clock w1 = clock w) as Hclock.
  { unfold ky_get in Hget. destruct (responses w); by injection Hget as _ <-. }
  destruct (ok res); [|done].
  destruct (match content_type res with Some _ => _ | None => _ end); [done|].
  destruct (Net.json res) as [json|e]; [|done].
  cbn [fst snd].
  destruct (LRUCache.has (LRUCache.set _ _ _ _) now' (URL_toString u)) eqn:Hhas;
    [|done].
  apply has_set_other in Hhas; [congruence|done].
Qed.

End CacheBehaviour.

(** ** OAuthConfig.ts: [discover] and [dcr], [fromJSON] *)

Section ConfigBehaviour.
Import OAuthDiscovery OAuthDiscoveryEntry.
Context `{Platform} `{OpenidDiscovery} `{OpenidClient} `{OAuthConfigEntry.Coercion}.


(** X15. What [OAuthConfig.fromJSON] makes of the record [toJSON] wrote
    is a plain [OAuthConfig] without scopes and without additional
    parameters: the record's [scopes], [name] and [supportsPKCE] are not
    read, and PKCE support is asked of the rebuilt configuration. *)
Theorem restored_config_has_no_scopes (c c' : OAuthConfig.t) :
  OAuthConfig.fromJSON (Some (JObj (OAuthConfig.toJSON c))) = Ok c' ->
  OAuthConfig.scopes c' = [] /\
  OAuthConfig.additionalParams c' = [] /\
  OAuthConfig.name c' = "OAuthConfig" /\
  OAuthConfig.supportsPKCE c' = serverSupportsPKCE (OAuthConfig.config c') /\
  new_URL (JStr (URL_toString (OAuthConfig.redirectUri c))) =
    Some (OAuthConfig.redirectUri c').
Proof.
  assert (OAuthConfig.toJSON c !! "client" =
            Some (clientMetadata (OAuthConfig.config c))) as Hclient
    by (unfold OAuthConfig.toJSON; by simplify_map_eq).
  assert (OAuthConfig.toJSON c !! "server" =
            Some (serverMetadata (OAuthConfig.config c))) as Hserver
    by (unfold OAuthConfig.toJSON; by simplify_map_eq).
  assert (OAuthConfig.toJSON c !! "redirectUri" =
            Some (JStr (URL_toString (OAuthConfig.redirectUri c)))) as Hredirect
    by (unfold OAuthConfig.toJSON; by simplify_map_eq).
  unfold OAuthConfig.fromJSON. rewrite Hclient, Hserver, Hredirect.
  destruct (clientMetadata (OAuthConfig.config c)) as [| | | | |client];
    try discriminate;
    (destruct (new_Configuration _ _ _) as [userConfig|e];
     cbn [JS.bind]; [|discriminate]);
    unfold URL_of;
    (destruct (new_URL _) as [url|]; cbn [JS.bind]; [|discriminate]);
    by intros [= <-].
Qed.

End ConfigBehaviour.

(** ** The flow state: memoization *)

Section FlowStateBehaviour.
Import OAuthState.

(** X16. [getCodeChallenge] touches [_pkce] only, and once it has
    returned a challenge that is not empty every later call returns that
    challenge and leaves the object as it is, whatever
    [calculatePKCECodeChallenge] would compute. *)
Theorem getCodeChallenge_memoizes (first later : OpenidClient) (fs : t) :
  let challenge := (@getCodeChallenge first fs).1 in
  let memo := (@getCodeChallenge first fs).2 in
  state memo = state fs /\
  nonce memo = nonce fs /\
  codeVerifier memo = codeVerifier fs /\
  (truthy_string challenge = true ->
   @getCodeChallenge later memo = (challenge, memo)).
Proof.
  cbv zeta.
  destruct (@getCodeChallenge_fields first fs) as (Hs & Hn & Hc & Hmemo).
  repeat split; try done.
  intros Htruthy. unfold getCodeChallenge at 1. by rewrite Hmemo, Htruthy.
Qed.

(** X17. A challenge that comes with the options, or out of storage, is
    returned as it is: it is not compared with the challenge of the
    [codeVerifier] next to it. *)
Theorem supplied_challenge_is_returned
    (client : OpenidClient) (json : gmap string JSON) pkce rnd :
  json !! "pkce" = Some (JStr pkce) ->
  truthy_string pkce = true ->
  (@getCodeChallenge client (fromJSON_value (Some (JObj json)) rnd)).1 = pkce.
Proof.
  intros Hpkce Htruthy.
  unfold getCodeChallenge, fromJSON_value, options_of_value, constructor.
  cbn [_pkce mbind option_bind opt_pkce]. simpl. by rewrite Hpkce, Htruthy.
Qed.

End FlowStateBehaviour.

(** ** The orchestrator: resuming, failing closed, and errors *)

Section ClientBehaviour.
Import OAuthClient.
Context `{Platform} `{OpenidClient}.

(** X18. A flow started with the memory provider can be resumed: once
    [createAuthorizationUrl] has returned, [fromStorage] under the flow's
    [state] gives an orchestrator with the same flow state, memoized
    challenge included, when [JSON.parse] reads back what
    [JSON.stringify] wrote and the configuration factory accepts the
    [config] sub-record. *)
Theorem started_flow_is_resumed
    (sheriff : URLSheriff) c scopeSeparator rt url c' rt' ConfigClass config rnd :
  storage c = Some MemoryStorageProvider ->
  createAuthorizationUrl c scopeSeparator rt = (Ok url, c', rt') ->
  truthy_string (stateRecord c') = true ->
  JSON_parse (stateRecord c') =
    Some (JObj (<["state" := OAuthState.Serialized_value
                               (OAuthState.toJSON (state c'))]>
                  (<["config" := JObj (OAuthConfig.toJSON (OAuthClient.config c'))]>
                     ∅))) ->
  ConfigClass_fromJSON ConfigClass
    (Some (JObj (OAuthConfig.toJSON (OAuthClient.config c')))) = Ok config ->
  state c' = (OAuthState.getCodeChallenge (state c)).2 /\
  (fromStorage MemoryStorageProvider ConfigClass OAuthStateClass
     (OAuthState.state (state c)) rnd rt').1 =
    Ok (mk config (state c') (Some MemoryStorageProvider)).
Proof.
  intros Hsp Hcreate Htruthy Hparse Hconfig.
  destruct (createAuthorizationUrl_memory_saved _ _ _ _ _ _ Hsp Hcreate)
    as [Hsaved _].
  assert (state c' = (OAuthState.getCodeChallenge (state c)).2) as Hstate.
  { revert Hcreate. unfold createAuthorizationUrl.
    destruct (if bool_decide _ then _ else _) as [safe|e]; [|discriminate].
    destruct (OAuthState.getCodeChallenge (state c)) as [challenge memo].
    destruct (saveState _ rt) as [[[]|e] rt'']; [|discriminate].
    by intros [= _ <- _]. }
  split; [done|].
  assert (OAuthState.state (state c') = OAuthState.state (state c)) as Hkey.
  { rewrite Hstate. by destruct (getCodeChallenge_fields (state c)) as [-> _]. }
  rewrite <- Hkey.
  eapply fromStorage_one_missing with (s := store rt').
  - cbn [await get MemoryStorageProvider]. by rewrite Hsaved, Htruthy.
  - exact Htruthy.
  - exact Hparse.
  - left. by rewrite lookup_insert_eq.
  - rewrite lookup_insert_eq. cbn [StateClass_fromJSON OAuthStateClass].
    by rewrite fromJSON_value_Serialized_value.
  - rewrite lookup_insert_ne by done. by rewrite lookup_insert_eq.
Qed.

(** X19. In production an unsafe redirect URI fails closed: the call
    rejects with the sheriff's error, nothing is saved and the flow state
    is not touched. Outside production the sheriff is not consulted: the
    outcome is the same with any sheriff. *)
Theorem unsafe_redirect_fails_closed (sheriff other : URLSheriff) c scopeSeparator rt :
  (forall e,
      NODE_ENV rt = Some "production" ->
      @isSafeURL sheriff (OAuthConfig.redirectUri (OAuthClient.config c)) = Throw e ->
      @createAuthorizationUrl _ _ sheriff c scopeSeparator rt = (Throw e, c, rt)) /\
  (NODE_ENV rt <> Some "production" ->
   @createAuthorizationUrl _ _ sheriff c scopeSeparator rt =
   @createAuthorizationUrl _ _ other c scopeSeparator rt).
Proof.
  split.
  - intros e Henv Hunsafe. unfold createAuthorizationUrl.
    rewrite bool_decide_eq_true_2 by done. by rewrite Hunsafe.
  - intros Henv. unfold createAuthorizationUrl.
    by rewrite !bool_decide_eq_false_2 by done.
Qed.

(** X20. A provider that fails at the call of [save] stops the flow:
    [createAuthorizationUrl] rejects with the provider's error and returns
    no URL. *)
Theorem synchronous_save_failure_is_surfaced
    (sheriff : URLSheriff) c scopeSeparator rt provider e s safe :
  (if bool_decide (NODE_ENV rt = Some "production")
   then @isSafeURL sheriff (OAuthConfig.redirectUri (OAuthClient.config c))
   else Ok true) = Ok safe ->
  storage c = Some provider ->
  (forall key value, save provider key value (store rt) = (Now (Throw e), s)) ->
  (@createAuthorizationUrl _ _ sheriff c scopeSeparator rt).1.1 = Throw e.
Proof.
  intros Hsafe Hsp Hsave. unfold createAuthorizationUrl. rewrite Hsafe.
  destruct (OAuthState.getCodeChallenge (state c)) as [challenge memo].
  unfold saveState. cbn [storage]. by rewrite Hsp, Hsave.
Qed.

(** X21. A client error whose response body is not JSON: the call
    rejects with the [SyntaxError] of the parse, and the client error is
    not reported. *)
Theorem unparsable_error_body_hides_the_client_error c url u e http body :
  toURL url = Ok u ->
  authorizationCodeGrant (OAuthConfig.config (OAuthClient.config c)) u
    (mkChecks (OAuthState.state (state c)) (OAuthState.codeVerifier (state c))
       (OAuthState.nonce (state c))) = Throw e ->
  class e = ClientError ->
  cause e = Some http -> class http = HTTPError ->
  response_body http = Some body -> JSON_parse body = None ->
  getTokensFromCodeGrant c url =
    Throw (new_Error SyntaxError "JSON Parse error").
Proof.
  intros Hu Hgrant Hclass Hcause Hhttp Hbody Hparse.
  unfold getTokensFromCodeGrant, instanceof, parseJSON.
  by rewrite Hu; cbn [JS.bind]; rewrite Hgrant; cbn [JS.bind try_catch];
    rewrite Hclass, Hcause, Hhttp, Hbody, Hparse.
Qed.

(** X22. A stored entry that parses to a value that is not an object:
    [null], [false], [0] and the empty string are reported as "not
    found", an array as "invalid", and any other value makes the [in]
    test throw a [TypeError]; the factories are not called. *)
Theorem fromStorage_entry_that_is_not_an_object
    storage ConfigClass StateClass key rnd rt s entry json :
  await (get storage (stateKey key) (store rt)) = (Ok (Some entry), s) ->
  truthy_string entry = true ->
  JSON_parse entry = Some json ->
  (forall o, json <> JObj o) ->
  (fromStorage storage ConfigClass StateClass key rnd rt).1 =
    Throw (if negb (truthy (Some json))
           then new_Error OAuthStateError ("State " ++ key ++ " not found")
           else match json with
                | JArr _ =>
                    new_Error OAuthStateError ("State " ++ key ++ " is invalid")
                | _ =>
                    new_Error TypeError "right-hand side of 'in' is not an object"
                end).
Proof.
  intros Hget Htruthy Hparse Hobj.
  unfold fromStorage, restore, parseJSON.
  rewrite Hget; cbn [JS.bind]; rewrite Htruthy, Hparse; cbn [JS.bind negb fst].
  destruct json as [|b|n|str|l|o]; cbn [truthy negb];
    try reflexivity.
  - by destruct b.
  - by destruct (n =? 0)%Z.
  - by destruct (String.eqb str "").
  - by destruct (Hobj o).
Qed.

End ClientBehaviour.

(** ** The storage providers *)

Section StorageBehaviour.
Import StorageEntry.

(** X23. The memory provider: after [save(key, value)], [has(key)] is
    true and [get(key)] gives the value back, except that an empty string
    is read back as [null]; other keys are not affected; after
    [delete(key)] the key is gone. *)
Theorem memory_provider_roundtrip key value other (s : Store) :
  let saved := (save MemoryStorageProvider key value s).2 in
  (await (get MemoryStorageProvider key saved)).1 =
    Ok (if truthy_string value then Some value else None) /\
  (await (has MemoryStorageProvider key saved)).1 = Ok true /\
  (other <> key ->
   (await (get MemoryStorageProvider other saved)).1 =
   (await (get MemoryStorageProvider other s)).1) /\
  (await (has MemoryStorageProvider key
            (Storage.delete MemoryStorageProvider key saved).2)).1 = Ok false /\
  (await (get MemoryStorageProvider key
            (Storage.delete MemoryStorageProvider key saved).2)).1 = Ok None.
Proof.
  cbv zeta. cbn [save get has Storage.delete MemoryStorageProvider await fst snd].
  rewrite !lookup_delete_eq, !lookup_insert_eq.
  repeat split.
  intros Hne. by rewrite lookup_insert_ne.
Qed.

(** X24. [new RedisStorageProvider(redis, options)] succeeds exactly when
    the options carry a prefix that is not empty and a delimiter of one
    character; the defaults apply only when the options are left out
    altogether, so options with a prefix alone are refused. *)
Theorem redis_provider_options argument options :
  RedisStorageProvider_new None = Ok (mkRedisOptions "ez-oauth" ":") /\
  (RedisStorageProvider_new (Some argument) = Ok options <->
   arg_prefix argument = Some (prefix options) /\
   arg_delimiter argument = Some (delimiter options) /\
   prefix options <> "" /\
   String.length (delimiter options) = 1).
Proof.
  split; [reflexivity|].
  unfold RedisStorageProvider_new, truthy_string. cbn [default from_option id].
  destruct argument as [p d], options as [p' d'].
  cbn [arg_prefix arg_delimiter prefix delimiter]. split.
  - destruct p as [p|]; [|discriminate].
    destruct (String.eqb_spec p ""); cbn [negb]; [discriminate|].
    destruct d as [d|]; [|discriminate].
    destruct (String.eqb_spec d ""); cbn [negb]; [discriminate|].
    destruct (Nat.eqb_spec (String.length d) 1); [|discriminate].
    by intros [= -> ->].
  - intros ([= ->] & [= ->] & Hne & Hlen).
    destruct (String.eqb_spec p' ""); [done|]. cbn [negb].
    destruct (String.eqb_spec d' ""); [by subst|]. cbn [negb].
    by rewrite Hlen.
Qed.

Context `{RedisClient}.

(** X25. Within one Redis provider two keys never share an entry: the
    name sent to Redis determines the key. And [clear] removes no entry
    the provider has saved, for a client whose [DEL] removes the name it
    is given and nothing else, unless the delimiter is a star. *)
Theorem redis_provider_names options key key' value (s : Store) :
  (createKey options key = createKey options key' -> key = key') /\
  ((forall name (s : Store), (redis_del name s).2 = base.delete name s) ->
   String.length (delimiter options) = 1 ->
   delimiter options <> "*" ->
   s !! createKey options key = Some value ->
   (await (RedisStorageProvider_clear options s)).2 !! createKey options key =
     Some value).
Proof.
  split.
  - unfold createKey. intros Heq.
    by do 2 apply String.app_inj in Heq.
  - intros Hdel Hlen Hstar Hsaved.
    unfold RedisStorageProvider_clear. cbn [await]. rewrite Hdel.
    rewrite lookup_delete_ne; [done|].
    unfold createKey. intros Heq. apply String.app_inj in Heq.
    destruct (delimiter options) as [|c [|c' d]]; try discriminate.
    cbn in Heq. destruct key; [|discriminate].
    injection Heq as <-. by apply Hstar.
Qed.

End StorageBehaviour.

(** ** utils/auth.ts *)

Section AuthBehaviour.
Import Auth.
Context `{Encoding}.

Lemma indexOf_colon_split raw sep :
  indexOf_colon raw = Some sep ->
  raw = slice_to sep raw ++ ":" ++ slice_from (sep + 1) raw /\
  indexOf_colon (slice_to sep raw) = None.
Proof.
  revert sep. induction raw as [|c raw IH]; intros sep; [discriminate|].
  simpl. destruct (Ascii.eqb_spec c ":"%char) as [->|Hc].
  - by intros [= <-].
  - destruct (indexOf_colon raw) as [n|]; [|discriminate].
    intros [= <-]. destruct (IH n eq_refl) as [Hraw Hid].
    simpl. split.
    + change (String c raw =
              String c (slice_to n raw ++ ":" ++ slice_from (n + 1) raw)).
      by f_equal.
    + destruct (Ascii.eqb_spec c ":"%char); [done|]. by rewrite Hid.
Qed.

(** X26. Basic credentials are split at the first colon: the client id
    is what precedes it and holds no colon, the secret is all that
    follows, further colons included. Each part is percent-decoded on its
    own, and a part that does not decode is kept as it is. *)
Theorem basic_credentials_split_at_first_colon authHeader sep :
  let raw := base64_to_utf8 (trim (slice_from 6 authHeader)) in
  startsWith "Basic " authHeader = true ->
  String.length raw <= 512 ->
  indexOf_colon raw = Some sep ->
  exists id secret,
    raw = id ++ ":" ++ secret /\
    indexOf_colon id = None /\
    decodeBasicAuthCredentials authHeader =
      "Basic " ++
      utf8_to_base64
        (default id (decodeURIComponent id) ++ ":" ++
         default secret (decodeURIComponent secret)).
Proof.
  cbv zeta. intros Hbasic Hlen Hsep.
  destruct (indexOf_colon_split _ _ Hsep) as [Hraw Hid].
  eexists _, _. split; [exact Hraw|]. split; [exact Hid|].
  unfold decodeBasicAuthCredentials, safeDecode.
  rewrite Hbasic. cbn [negb].
  assert ((512 <? String.length
             (base64_to_utf8 (trim (slice_from 6 authHeader))))%nat = false) as ->
    by (apply Nat.ltb_ge; lia).
  rewrite Hsep.
  by destruct (decodeURIComponent (slice_to _ _)),
       (decodeURIComponent (slice_from _ _)).
Qed.

Lemma startsWith_app p s : startsWith p (p ++ s) = true.
Proof.
  unfold startsWith. induction p as [|c p IH]; [by destruct s|].
  change (String c p ++ s) with (String c (p ++ s)). simpl.
  by destruct (ascii_dec c c).
Qed.

(** X27. The header is rewritten only when it is a Basic header whose
    credentials are no longer than 512 and hold a colon; every other
    header comes back as it is. What comes back for a Basic header is a
    Basic header. *)
Theorem header_is_rewritten_only_for_basic_credentials authHeader :
  let raw := base64_to_utf8 (trim (slice_from 6 authHeader)) in
  (decodeBasicAuthCredentials authHeader <> authHeader ->
   startsWith "Basic " authHeader = true /\
   String.length raw <= 512 /\
   is_Some (indexOf_colon raw)) /\
  startsWith "Basic " (decodeBasicAuthCredentials authHeader) =
    startsWith "Basic " authHeader.
Proof.
  cbv zeta. unfold decodeBasicAuthCredentials.
  destruct (startsWith "Basic " authHeader) eqn:Hbasic; cbn [negb];
    [|by rewrite Hbasic].
  destruct (Nat.ltb_spec 512
              (String.length (base64_to_utf8 (trim (slice_from 6 authHeader)))))
    as [Hlong|Hshort]; [by rewrite Hbasic|].
  destruct (indexOf_colon _) as [sep|]; [|by rewrite Hbasic].
  split; [|apply startsWith_app].
  intros _. repeat split; [lia|by eexists].
Qed.

End AuthBehaviour.

(** ** The further properties on concrete inputs *)

Section DiscoveryExamples.
Import OAuthDiscovery OAuthDiscoveryEntry Fixtures MoreFixtures Inputs.

#[local] Existing Instance discovery_platform.
#[local] Existing Instance verifier.
#[local] Existing Instance openid_discovery.
#[local] Existing Instance token_endpoint.
#[local] Existing Instance coercion.

Lemma requestResourceId_trailing_slash_witness :
  requestResourceIdFromIssuer (AUrl (mkURL RESOURCE_ID "/mcp/" "")) (Some "files") =
  requestResourceIdFromIssuer (AUrl (mkURL RESOURCE_ID "/mcp" "")) (Some "files") /\
  requestResourceIdFromIssuer (AUrl (mkURL RESOURCE_ID "/mcp" "")) (Some "files") =
    Ok "https://resource.example.com/mcp/files".
Proof.
  split.
  - apply (requestResourceId_trailing_slash RESOURCE_ID "/mcp" "" "" (Some "files")).
    vm_compute. reflexivity.
  - vm_compute. reflexivity.
Defined.


Lemma json_path_errors_witness :
  let e :=
    new_Error Error
      "Invalid protected resource discovery: https://resource.example.com/.well-known/oauth-protected-resource" in
  (getProtectedResourceDiscovery issuer None None (world [Ok html_response])).1 =
    Throw e /\
  (e = new_Error Error
         ("Invalid protected resource discovery: " ++ url html_response) \/
   (instanceof_Error e = true /\
    startsWith "Verification required" (message e) = true)).
Proof.
  cbv zeta. split; [vm_compute; reflexivity|].
  apply (json_path_errors issuer None None (world [Ok html_response])
           (mkURL RESOURCE_ID "/" "") html_response []);
    vm_compute; reflexivity.
Defined.

Lemma verification_failure_is_thrown_witness :
  let options := Some (mkOptions (Some (Jwks other_key_set))) in
  let failure := new_Error JOSEError "signature verification failed" in
  (getProtectedResourceDiscovery issuer None options
     (world [Ok jwt_response])).1 = Throw failure /\
  (getProtectedResourceDiscovery issuer None options
     (world [Ok (json_response (JObj plain_with_signed_doc))])).1 =
    Throw (new_Error Error
             "Invalid protected resource discovery: https://resource.example.com/.well-known/oauth-protected-resource").
Proof.
  cbv zeta. split.
  - destruct (verification_failure_is_thrown issuer None
                (Some (mkOptions (Some (Jwks other_key_set))))
                (Jwks other_key_set) (world [Ok jwt_response])
                (mkURL RESOURCE_ID "/" "") jwt_response [] RESOURCE_ID
                (new_Error JOSEError "signature verification failed"))
      as [Hbody _]; [vm_compute; reflexivity ..|].
    apply Hbody; vm_compute; reflexivity.
  - destruct (verification_failure_is_thrown issuer None
                (Some (mkOptions (Some (Jwks other_key_set))))
                (Jwks other_key_set)
                (world [Ok (json_response (JObj plain_with_signed_doc))])
                (mkURL RESOURCE_ID "/" "")
                (json_response (JObj plain_with_signed_doc)) [] RESOURCE_ID
                (new_Error JOSEError "signature verification failed"))
      as [_ Hjson]; [vm_compute; reflexivity ..|].
    rewrite (Hjson plain_with_signed_doc (JStr "signed.minimal.token"))
      by (vm_compute; reflexivity).
    vm_compute. reflexivity.
Defined.


Lemma unverified_claims_only_select_the_key_witness :
  @verifySignedMetadata discovery_platform verifier
    (JStr "signed.minimal.token") (GetKey key_callback) RESOURCE_ID =
  @verifySignedMetadata discovery_platform lenient_decoder
    (JStr "signed.minimal.token") (GetKey key_callback) RESOURCE_ID /\
  @verifySignedMetadata discovery_platform (jose anonymous_tokens)
    (JStr "anonymous.token") (GetKey key_callback) RESOURCE_ID = Ok None.
Proof.
  split.
  - apply (unverified_claims_only_select_the_key discovery_platform verifier
             lenient_decoder (JStr "signed.minimal.token") key_callback
             RESOURCE_ID minimal_payload forged_claims);
      vm_compute; reflexivity.
  - apply (unverified_claims_only_select_the_key discovery_platform
             (jose anonymous_tokens) (jose anonymous_tokens)
             (JStr "anonymous.token") key_callback RESOURCE_ID
             anonymous_payload anonymous_payload);
      try (vm_compute; reflexivity).
    intros iss. vm_compute. discriminate.
Defined.

Lemma payloadToResult_shape_witness :
  let result := default ∅ (payloadToResult minimal_payload) in
  payloadToResult minimal_payload = Some result /\
  (exists resource first others method methods documentation,
      result !! "resource" = Some (JStr resource) /\
      result !! "authorization_servers" = Some (JArr (first :: others)) /\
      result !! "bearer_methods_supported" = Some (JArr (method :: methods)) /\
      result !! "resource_documentation" = Some (JStr documentation)) /\
  result !! "iss" = None.
Proof.
  cbv zeta.
  assert (payloadToResult minimal_payload =
            Some (default ∅ (payloadToResult minimal_payload))) as Hp
    by (vm_compute; reflexivity).
  destruct (payloadToResult_shape _ _ Hp) as [Hrequired Hkeys].
  split; [exact Hp|]. split; [exact Hrequired|].
  destruct (default ∅ (payloadToResult minimal_payload) !! "iss") eqn:Hiss;
    [|reflexivity].
  assert ("iss" ∈ ["resource"; "authorization_servers";
                   "bearer_methods_supported"; "resource_documentation";
                   "resource_endpoints";
                   "resource_signing_alg_values_supported"]) as Hin
    by (apply Hkeys; by eexists).
  exfalso.
  repeat (apply elem_of_cons in Hin as [Hin|Hin]; [discriminate Hin|]).
  by apply elem_of_nil in Hin.
Defined.

Lemma payloadToResult_idempotent_witness :
  let result := default ∅ (payloadToResult minimal_payload) in
  payloadToResult minimal_payload = Some result /\
  payloadToResult result = Some result.
Proof.
  cbv zeta.
  assert (payloadToResult minimal_payload =
            Some (default ∅ (payloadToResult minimal_payload))) as Hp
    by (vm_compute; reflexivity).
  split; [exact Hp|]. exact (payloadToResult_idempotent _ _ Hp).
Defined.

Lemma discover_protected_resource_witness :
  let w := world [Ok (json_response (JObj first_doc))] in
  exists first others,
    first_doc !! "authorization_servers" = Some (JArr (first :: others)) /\
    discover issuer (discover_options protected_resource) w =
      (let* server := URL_of first in
       discovery server "client-1" None (Some oauth2),
       (getProtectedResourceDiscovery issuer None None w).2) /\
    dcr issuer (mkDcrOptions (AString "https://app.example.com/callback")
                  (Some protected_resource) None) w =
      (let* server := URL_of first in
       dynamicClientRegistration server (JObj ∅),
       (getProtectedResourceDiscovery issuer None None w).2).
Proof.
  cbv zeta.
  apply (discover_protected_resource issuer (discover_options protected_resource)
           (mkDcrOptions (AString "https://app.example.com/callback")
              (Some protected_resource) None)
           (world [Ok (json_response (JObj first_doc))]) (Some first_doc));
    vm_compute; reflexivity.
Defined.

Lemma discover_by_issuer_witness :
  discover issuer (discover_options oauth2) (world [Ok not_found]) =
    (discovery (mkURL RESOURCE_ID "/" "") "client-1" None (Some oauth2),
     world [Ok not_found]).
Proof.
  rewrite (discover_by_issuer issuer (discover_options oauth2)
             (world [Ok not_found])) by discriminate.
  vm_compute. reflexivity.
Defined.

Lemma cached_document_is_served_witness :
  exists cache1 w1,
    OAuthConfig.getProtectedResourceDiscovery issuer OAuthConfig.cache
      (world [Ok (json_response (JObj first_doc))]) =
      (Ok (Some (JObj first_doc)), cache1, w1) /\
    forall w2,
      (clock w2 - 0 <= 604800000)%Z ->
      exists cache2,
        OAuthConfig.getProtectedResourceDiscovery issuer cache1 w2 =
          (Ok (Some (JObj first_doc)), cache2, w2).
Proof.
  apply (cached_document_is_served RESOURCE_ID OAuthConfig.cache
           (world [Ok (json_response (JObj first_doc))])
           (mkURL RESOURCE_ID "/" "") (json_response (JObj first_doc)) []);
    vm_compute; reflexivity.
Defined.

Lemma failed_discovery_is_not_cached_witness :
  (OAuthConfig.getProtectedResourceDiscovery issuer OAuthConfig.cache
     (world [Ok not_found])).1.2 = OAuthConfig.cache.
Proof.
  apply (failed_discovery_is_not_cached issuer OAuthConfig.cache
           (world [Ok not_found]) (Ok None) _
           (OAuthConfig.getProtectedResourceDiscovery issuer OAuthConfig.cache
              (world [Ok not_found])).2).
  - vm_compute. reflexivity.
  - discriminate.
Defined.

Lemma url_object_issuer_is_not_cached_witness :
  LRUCache.has
    (OAuthConfig.getProtectedResourceDiscovery (AUrl issuer_object)
       OAuthConfig.cache (world [Ok (json_response (JObj first_doc))])).1.2
    1000 (URL_toString issuer_object) = false.
Proof.
  apply (url_object_issuer_is_not_cached issuer_object OAuthConfig.cache
           (world [Ok (json_response (JObj first_doc))]) 1000).
  - vm_compute. discriminate.
  - vm_compute. reflexivity.
  - vm_compute. discriminate.
Defined.


End DiscoveryExamples.

Section FlowExamples.
Import OAuthClient StorageEntry Auth Fixtures MoreFixtures Inputs.

#[local] Existing Instance token_endpoint.
#[local] Existing Instance sheriff.

Lemma restored_config_has_no_scopes_witness :
  let c := configuration true [("prompt", "consent")] in
  OAuthConfig.scopes c = ["openid"; "email"] /\
  @OAuthConfig.fromJSON client_platform token_endpoint
    (Some (JObj (OAuthConfig.toJSON c))) = Ok restored_configuration /\
  OAuthConfig.scopes restored_configuration = [] /\
  OAuthConfig.additionalParams restored_configuration = [].
Proof.
  cbv zeta.
  assert (@OAuthConfig.fromJSON client_platform token_endpoint
            (Some (JObj (OAuthConfig.toJSON
                           (configuration true [("prompt", "consent")])))) =
            Ok restored_configuration) as Hrestored
    by (vm_compute; reflexivity).
  destruct (@restored_config_has_no_scopes client_platform token_endpoint
              _ _ Hrestored) as (Hscopes & Hparams & _).
  split; [vm_compute; reflexivity|]. split; [exact Hrestored|].
  split; [exact Hscopes|exact Hparams].
Defined.

Lemma getCodeChallenge_memoizes_witness :
  let memo := (@OAuthState.getCodeChallenge token_endpoint flow_state).2 in
  OAuthState.state memo = "state-1" /\
  @OAuthState.getCodeChallenge drifted memo = ("S256(verifier-1)", memo) /\
  (@OAuthState.getCodeChallenge drifted flow_state).1 = "drifted(verifier-1)".
Proof.
  cbv zeta.
  destruct (getCodeChallenge_memoizes token_endpoint drifted flow_state)
    as (Hstate & _ & _ & Hmemo).
  split; [exact Hstate|]. split; [|vm_compute; reflexivity].
  apply Hmemo. vm_compute. reflexivity.
Defined.

Lemma supplied_challenge_is_returned_witness :
  (@OAuthState.getCodeChallenge token_endpoint
     (OAuthState.fromJSON_value (Some (JObj stored_state)) fresh)).1 =
    "stored-challenge" /\
  @calculatePKCECodeChallenge token_endpoint "verifier-1" = "S256(verifier-1)".
Proof.
  split; [|vm_compute; reflexivity].
  apply (supplied_challenge_is_returned token_endpoint stored_state
           "stored-challenge" fresh); vm_compute; reflexivity.
Defined.

Lemma started_flow_is_resumed_witness :
  let c := client true [] (Some MemoryStorageProvider) in
  let started := @createAuthorizationUrl flow_platform _ _ c None idle in
  OAuthClient.state started.1.2 =
    OAuthState.mk "state-1" "nonce-1" (Some "S256(verifier-1)") "verifier-1" /\
  (@fromStorage flow_platform MemoryStorageProvider
     (@OAuthConfigClass flow_platform token_endpoint) OAuthStateClass
     "state-1" fresh started.2).1 =
    Ok (mk restored_configuration (OAuthClient.state started.1.2)
          (Some MemoryStorageProvider)).
Proof.
  cbv zeta.
  destruct (@started_flow_is_resumed flow_platform token_endpoint sheriff
              (client true [] (Some MemoryStorageProvider)) None idle
              "https://as.example.com/authorize?redirect_uri=https://app.example.com/callback&scope=openid email&code_challenge=S256(verifier-1)&state=state-1&code_challenge_method=S256"
              (@createAuthorizationUrl flow_platform _ _
                 (client true [] (Some MemoryStorageProvider)) None idle).1.2
              (@createAuthorizationUrl flow_platform _ _
                 (client true [] (Some MemoryStorageProvider)) None idle).2
              (@OAuthConfigClass flow_platform token_endpoint)
              restored_configuration fresh)
    as [Hstate Hresumed]; [vm_compute; reflexivity ..|].
  split; [vm_compute; reflexivity|exact Hresumed].
Defined.

Lemma unsafe_redirect_fails_closed_witness :
  let c := client true [] (Some MemoryStorageProvider) in
  @createAuthorizationUrl client_platform _ strict_sheriff c None production =
    (Throw unsafe, c, production) /\
  @createAuthorizationUrl client_platform _ strict_sheriff c None idle =
  @createAuthorizationUrl client_platform _ sheriff c None idle.
Proof.
  cbv zeta.
  destruct (@unsafe_redirect_fails_closed client_platform token_endpoint
              strict_sheriff sheriff
              (client true [] (Some MemoryStorageProvider)) None production)
    as [Hclosed _].
  destruct (@unsafe_redirect_fails_closed client_platform token_endpoint
              strict_sheriff sheriff
              (client true [] (Some MemoryStorageProvider)) None idle)
    as [_ Hidle].
  split.
  - apply Hclosed; vm_compute; reflexivity.
  - apply Hidle. vm_compute. discriminate.
Defined.

Lemma synchronous_save_failure_is_surfaced_witness :
  (@createAuthorizationUrl client_platform _ sheriff
     (client true [] (Some full_provider)) None idle).1.1 = Throw quota.
Proof.
  apply (@synchronous_save_failure_is_surfaced client_platform token_endpoint
           sheriff (client true [] (Some full_provider)) None idle
           full_provider quota ∅ true); vm_compute; reflexivity.
Defined.

Lemma unparsable_error_body_hides_the_client_error_witness :
  @getTokensFromCodeGrant client_platform (openid (Throw gateway_error))
    (client true [] None) callback =
    Throw (new_Error SyntaxError "JSON Parse error").
Proof.
  eapply (@unparsable_error_body_hides_the_client_error client_platform
            (openid (Throw gateway_error)) (client true [] None) callback
            _ gateway_error); vm_compute; reflexivity.
Defined.

Lemma fromStorage_entry_that_is_not_an_object_witness :
  let stored entry :=
    mkRuntime None {[ stateKey "abc" := stringify entry ]} [] in
  (@fromStorage flow_platform MemoryStorageProvider
     (@OAuthConfigClass flow_platform token_endpoint) OAuthStateClass
     "abc" fresh (stored JNull)).1 =
    Throw (new_Error OAuthStateError "State abc not found") /\
  (@fromStorage flow_platform MemoryStorageProvider
     (@OAuthConfigClass flow_platform token_endpoint) OAuthStateClass
     "abc" fresh (stored (JNum 7))).1 =
    Throw (new_Error TypeError "right-hand side of 'in' is not an object") /\
  (@fromStorage flow_platform MemoryStorageProvider
     (@OAuthConfigClass flow_platform token_endpoint) OAuthStateClass
     "abc" fresh (stored (JArr []))).1 =
    Throw (new_Error OAuthStateError "State abc is invalid").
Proof.
  cbv zeta. split; [|split].
  - rewrite (@fromStorage_entry_that_is_not_an_object flow_platform
               MemoryStorageProvider _ _ "abc" fresh _
               {[ stateKey "abc" := "null" ]} "null" JNull);
      try (vm_compute; reflexivity); done.
  - rewrite (@fromStorage_entry_that_is_not_an_object flow_platform
               MemoryStorageProvider _ _ "abc" fresh _
               {[ stateKey "abc" := "7" ]} "7" (JNum 7));
      try (vm_compute; reflexivity); done.
  - rewrite (@fromStorage_entry_that_is_not_an_object flow_platform
               MemoryStorageProvider _ _ "abc" fresh _
               {[ stateKey "abc" := "[]" ]} "[]" (JArr []));
      try (vm_compute; reflexivity); done.
Defined.

Lemma memory_provider_roundtrip_witness :
  let saved := (save MemoryStorageProvider "a" "" {[ "b" := "1" ]}).2 in
  (await (get MemoryStorageProvider "a" saved)).1 = Ok None /\
  (await (has MemoryStorageProvider "a" saved)).1 = Ok true /\
  (await (get MemoryStorageProvider "b" saved)).1 = Ok (Some "1").
Proof.
  cbv zeta.
  destruct (memory_provider_roundtrip "a" "" "b" {[ "b" := "1" ]})
    as (Hget & Hhas & Hother & _).
  split; [exact Hget|]. split; [exact Hhas|].
  rewrite Hother by discriminate. vm_compute. reflexivity.
Defined.

Lemma redis_provider_options_witness :
  RedisStorageProvider_new (Some (mkRedisArgument (Some "flows") (Some "/"))) =
    Ok (mkRedisOptions "flows" "/") /\
  RedisStorageProvider_new (Some (mkRedisArgument (Some "flows") None)) =
    Throw (new_Error AssertionError "delimiter is required").
Proof.
  split; [|vm_compute; reflexivity].
  apply (redis_provider_options (mkRedisArgument (Some "flows") (Some "/"))
           (mkRedisOptions "flows" "/")).
  repeat split. discriminate.
Defined.

Lemma redis_provider_names_witness :
  let stored : Store := {[ "ez-oauth:core_oauth_state:state-1" := "record" ]} in
  (await (@RedisStorageProvider_clear redis redis_options stored)).2
    !! createKey redis_options "core_oauth_state:state-1" = Some "record".
Proof.
  cbv zeta.
  destruct (@redis_provider_names redis redis_options
              "core_oauth_state:state-1" "core_oauth_state:state-1" "record"
              {[ "ez-oauth:core_oauth_state:state-1" := "record" ]})
    as [_ Hclear].
  apply Hclear;
    [intros name s; reflexivity | reflexivity | discriminate
    | vm_compute; reflexivity].
Defined.

Lemma basic_credentials_split_at_first_colon_witness :
  (exists id secret,
      "id%3A1:s%253a" = id ++ ":" ++ secret /\
      indexOf_colon id = None /\
      @decodeBasicAuthCredentials encoding "Basic aWQlM0ExOnMlMjUzYQ==" =
        "Basic " ++
        @utf8_to_base64 encoding
          (default id (@decodeURIComponent encoding id) ++ ":" ++
           default secret (@decodeURIComponent encoding secret))) /\
  @decodeBasicAuthCredentials encoding "Basic aWQlM0ExOnMlMjUzYQ==" =
    "Basic aWQ6MTpzJTNh" /\
  @decodeBasicAuthCredentials encoding "Basic dXNlcjpwYTpzcw==" =
    "Basic dXNlcjpwYTpzcw==" /\
  @decodeBasicAuthCredentials encoding "Basic aWQ6JUUwJUE0JUE=" =
    "Basic aWQ6JUUwJUE0JUE=".
Proof.
  split; [|repeat split; vm_compute; reflexivity].
  apply (@basic_credentials_split_at_first_colon encoding
           "Basic aWQlM0ExOnMlMjUzYQ==" 6).
  - vm_compute. reflexivity.
  - vm_compute. lia.
  - vm_compute. reflexivity.
Defined.

Lemma header_is_rewritten_only_for_basic_credentials_witness :
  @decodeBasicAuthCredentials encoding "Bearer token-1" = "Bearer token-1" /\
  @decodeBasicAuthCredentials encoding "Basic bm9jb2xvbg==" = "Basic bm9jb2xvbg==" /\
  (startsWith "Basic " "Basic aWQlM0ExOnMlMjUzYQ==" = true /\
   String.length "id%3A1:s%253a" <= 512 /\
   is_Some (indexOf_colon "id%3A1:s%253a")) /\
  startsWith "Basic "
    (@decodeBasicAuthCredentials encoding "Basic aWQlM0ExOnMlMjUzYQ==") = true.
Proof.
  split; [vm_compute; reflexivity|]. split; [vm_compute; reflexivity|].
  destruct (@header_is_rewritten_only_for_basic_credentials encoding
              "Basic aWQlM0ExOnMlMjUzYQ==") as [Honly Hscheme].
  split.
  - apply Honly. vm_compute. discriminate.
  - rewrite Hscheme. vm_compute. reflexivity.
Defined.

End FlowExamples.

(** ** Resuming a flow that was stored in Redis *)

Section RedisFlow.
Import OAuthClient.
Context `{Platform} `{OpenidClient} `{URLSheriff} `{RedisClient}.


End RedisFlow.

Section RedisFlowExample.
Import OAuthClient Fixtures MoreFixtures Inputs.


End RedisFlowExample.
